(** * Sales insights API: a shallow embedding and its verified properties

    The development follows the layout of the Python package [app]:
    - [PyStr], [PyDecimal], [PyDatetime]: the fragments of the Python
      runtime the package relies on ([str], [decimal.Decimal],
      [datetime.datetime]);
    - [PyExn], [Runtime], [langchain]: exceptions, the event trace, the
      state-and-error monad in which the coroutines of the package are
      written, and the provider client;
    - [models], [database], [sales_analyzer], [langchain_service], [main]:
      one module per source file, definitions keeping the source's names.

    The embedding comes first, the theorems follow. *)

From Stdlib Require Import ZArith NArith List String Ascii Lia Bool.
From stdpp Require Import base list sorting gmap strings.

Open Scope Z_scope.

(* ===================================================================== *)
(** * Python [str]: sequences of Unicode code points                      *)
(* ===================================================================== *)

Module PyStr.

(** A Python [str] is a sequence of code points. *)
Definition str : Type := list N.

(** Source literals are written as UTF-8 text and decoded once. *)
Fixpoint decode_utf8 (bs : list N) : str :=
  match bs with
  | [] => []
  | b :: rest =>
      if (b <? 128)%N then b :: decode_utf8 rest
      else if (b <? 224)%N then
        match rest with
        | b1 :: rest1 =>
            ((b - 192) * 64 + (b1 - 128))%N :: decode_utf8 rest1
        | _ => []
        end
      else if (b <? 240)%N then
        match rest with
        | b1 :: b2 :: rest2 =>
            ((b - 224) * 4096 + (b1 - 128) * 64 + (b2 - 128))%N
              :: decode_utf8 rest2
        | _ => []
        end
      else
        match rest with
        | b1 :: b2 :: b3 :: rest3 =>
            ((b - 240) * 262144 + (b1 - 128) * 4096
             + (b2 - 128) * 64 + (b3 - 128))%N :: decode_utf8 rest3
        | _ => []
        end
  end.

Definition lit (s : string) : str :=
  decode_utf8 (map N_of_ascii (list_ascii_of_string s)).

Definition NL : N := 10%N.      (* "\n" *)
Definition DQUOTE : N := 34%N.  (* the double quote *)

(** ** [str(int)] *)

Definition digit_char (d : Z) : N := Z.to_N (48 + d).

(** Decimal digits of a non-negative integer, most significant first.
    [fuel] bounds the number of digits produced. *)
Fixpoint digits_aux (fuel : nat) (n : Z) (acc : str) : str :=
  let acc' := digit_char (n mod 10) :: acc in
  match fuel with
  | O => acc'
  | S f => if n <? 10 then acc' else digits_aux f (n / 10) acc'
  end.

(** A number below [2^k] has at most [k] decimal digits, so
    [Z.log2 n] extra rounds always suffice. *)
Definition nat_digits (n : Z) : str :=
  digits_aux (Z.to_nat (Z.log2 n)) n [].

Definition int_str (n : Z) : str :=
  if n <? 0 then 45%N :: nat_digits (- n) else nat_digits n.

(** ["%0<w>d" % n] for a non-negative [n]: left-pad with zeros. *)
Definition zero_pad (w : nat) (s : str) : str :=
  replicate (w - length s)%nat 48%N ++ s.

Definition pad_int (w : nat) (n : Z) : str :=
  if n <? 0 then 45%N :: zero_pad (w - 1) (nat_digits (- n))
  else zero_pad w (nat_digits n).

(** Reading a digit string back (used to state that printing is exact). *)
Definition digits_value (s : str) : Z :=
  fold_left (fun acc c => acc * 10 + (Z.of_N c - 48)) s 0.

Definition is_digit (c : N) : bool := (48 <=? c)%N && (c <=? 57)%N.

(** ** [str.join] and [str.split] on a one-character separator *)

Fixpoint join (sep : str) (parts : list str) : str :=
  match parts with
  | [] => []
  | [p] => p
  | p :: rest => p ++ sep ++ join sep rest
  end.


(** ** [str.strip()] *)

(** The code points for which [str.isspace] holds. *)
Definition is_space (c : N) : bool :=
  ((9 <=? c) && (c <=? 13) || (28 <=? c) && (c <=? 32)
   || (c =? 133) || (c =? 160) || (c =? 5760)
   || (8192 <=? c) && (c <=? 8202)
   || (c =? 8232) || (c =? 8233) || (c =? 8239) || (c =? 8287)
   || (c =? 12288))%N.

Fixpoint lstrip (s : str) : str :=
  match s with
  | [] => []
  | c :: rest => if is_space c then lstrip rest else s
  end.

Definition rstrip (s : str) : str := rev (lstrip (rev s)).

Definition strip (s : str) : str := rstrip (lstrip s).

(** [needle in haystack] *)
Definition contains (haystack needle : str) : Prop :=
  exists pre post, haystack = pre ++ needle ++ post.

(** ** [str.format] with named fields

    The template is scanned left to right; [{{] and [}}] are escapes,
    [{name}] is replaced by the value bound to [name], inserted
    verbatim.  [None] stands for the [KeyError]/[ValueError] Python
    raises on an unbound name or an unbalanced brace. *)

Definition LBRACE : N := 123%N.
Definition RBRACE : N := 125%N.

Fixpoint lookup_field (name : str) (kw : list (str * str)) : option str :=
  match kw with
  | [] => None
  | (k, v) :: rest => if decide (k = name) then Some v else lookup_field name rest
  end.

Fixpoint format_scan (t : str) (field : option str) (kw : list (str * str))
  : option str :=
  match field with
  | Some acc =>
      match t with
      | [] => None
      | c :: rest =>
          if (c =? RBRACE)%N then
            match lookup_field (rev acc) kw with
            | Some v =>
                match format_scan rest None kw with
                | Some out => Some (v ++ out)
                | None => None
                end
            | None => None
            end
          else format_scan rest (Some (c :: acc)) kw
      end
  | None =>
      match t with
      | [] => Some []
      | c :: rest =>
          if (c =? LBRACE)%N then
            match rest with
            | c' :: rest' =>
                if (c' =? LBRACE)%N then
                  match format_scan rest' None kw with
                  | Some out => Some (LBRACE :: out)
                  | None => None
                  end
                else format_scan rest (Some []) kw
            | [] => None
            end
          else if (c =? RBRACE)%N then
            match rest with
            | c' :: rest' =>
                if (c' =? RBRACE)%N then
                  match format_scan rest' None kw with
                  | Some out => Some (RBRACE :: out)
                  | None => None
                  end
                else None
            | [] => None
            end
          else
            match format_scan rest None kw with
            | Some out => Some (c :: out)
            | None => None
            end
      end
  end.

Definition format (template : str) (kw : list (str * str)) : option str :=
  format_scan template None kw.

End PyStr.
Export PyStr.

(* ===================================================================== *)
(** * Exceptions and results                                              *)
(* ===================================================================== *)

Module PyExn.

(** The exception classes that occur in the package.  All but
    [CancelledError] derive from [Exception]. *)
Inductive exn : Type :=
| HTTPException (status_code : Z) (detail : str)
| RuntimeError (msg : str)
| TypeError (msg : str)
| NameError (msg : str)
| ValueError (msg : str)
| AttributeError (msg : str)
| OverflowError (msg : str)
| InvalidOperation (msg : str)
| KeyError (msg : str)
| CollaboratorError (cls : str) (msg : str)
    (* raised by the storage engine, its driver or the provider client *)
| CancelledError.
    (* asyncio.CancelledError derives from BaseException only *)

(** [isinstance(e, Exception)] *)
Definition is_Exception (e : exn) : bool :=
  match e with
  | CancelledError => false
  | _ => true
  end.

(** [isinstance(e, HTTPException)] *)
Definition is_HTTPException (e : exn) : bool :=
  match e with
  | HTTPException _ _ => true
  | _ => false
  end.

Inductive result (A : Type) : Type :=
| Ok (a : A)
| Raise (e : exn).
Arguments Ok {A} a.
Arguments Raise {A} e.

Definition rbind {A B} (r : result A) (k : A -> result B) : result B :=
  match r with
  | Ok a => k a
  | Raise e => Raise e
  end.

Definition HTTP_500_INTERNAL_SERVER_ERROR : Z := 500.

End PyExn.
Export PyExn.

(* ===================================================================== *)
(** * [decimal.Decimal] (finite values, default context)                  *)
(* ===================================================================== *)

Module PyDecimal.

(** sign, coefficient, exponent: the value is
    [(-1)^dsign * dcoef * 10^dexp]. *)
Record Decimal : Type := mkDecimal {
  dsign : bool;
  dcoef : N;
  dexp : Z
}.

Definition pow10 (k : Z) : N := (10 ^ Z.to_N k)%N.

(** [d <= 0] *)
Definition le_zero (d : Decimal) : bool :=
  dsign d || (dcoef d =? 0)%N.

(** [d > 0] *)
Definition gt_zero (d : Decimal) : bool :=
  negb (dsign d) && (0 <? dcoef d)%N.

(** [Decimal._rescale(exp, ROUND_HALF_EVEN)] *)
Definition rescale (e : Z) (d : Decimal) : Decimal :=
  if e <=? dexp d then
    mkDecimal (dsign d) (dcoef d * pow10 (dexp d - e)) e
  else
    let p := pow10 (e - dexp d) in
    let q := (dcoef d / p)%N in
    let r := (dcoef d mod p)%N in
    let up := ((p <? 2 * r) || ((2 * r =? p) && N.odd q))%N in
    mkDecimal (dsign d) (if up then q + 1 else q)%N e.

(** [len(d._int)] *)
Definition ndigits (c : N) : Z :=
  Z.of_nat (length (nat_digits (Z.of_N c))).

(** [d.adjusted()] *)
Definition adjusted (d : Decimal) : Z := dexp d + ndigits (dcoef d) - 1.

Definition prec : Z := 28.
Definition Emax : Z := 999999.

(** [d.quantize(Decimal((0, (1,), e)))] in the default context. *)
Definition quantize (e : Z) (d : Decimal) : result Decimal :=
  if (dcoef d =? 0)%N then Ok (mkDecimal (dsign d) 0 e)
  else if Emax <? adjusted d then
    Raise (InvalidOperation (lit "exponent of quantize result too large for current context"))
  else if prec <? adjusted d - e + 1 then
    Raise (InvalidOperation (lit "quantize result has too many digits for current context"))
  else
    let ans := rescale e d in
    if Emax <? adjusted ans then
      Raise (InvalidOperation (lit "exponent of quantize result too large for current context"))
    else if prec <? ndigits (dcoef ans) then
      Raise (InvalidOperation (lit "quantize result has too many digits for current context"))
    else Ok ans.

(** [round(d, n)] is [d.quantize(Decimal('1E-n'))]. *)
Definition round (d : Decimal) (n : Z) : result Decimal := quantize (- n) d.

(** Exact sum, as [Decimal.__add__] gives while the coefficient fits
    the context precision. *)
Definition add (a b : Decimal) : Decimal :=
  let e := Z.min (dexp a) (dexp b) in
  let va := (if dsign a then -1 else 1) * Z.of_N (dcoef a * pow10 (dexp a - e)) in
  let vb := (if dsign b then -1 else 1) * Z.of_N (dcoef b * pow10 (dexp b - e)) in
  let v := va + vb in
  mkDecimal (if v =? 0 then dsign a && dsign b else v <? 0) (Z.to_N (Z.abs v)) e.

(** ** [format(d, spec)] for the fixed-point presentation type *)

(** Fixed-point rendering with [p] fractional digits. *)
Definition format_fixed (p : nat) (d : Decimal) : str :=
  let r := rescale (- Z.of_nat p) d in
  let scale := pow10 (Z.of_nat p) in
  let intpart := nat_digits (Z.of_N (dcoef r / scale)) in
  let fracpart := zero_pad p (nat_digits (Z.of_N (dcoef r mod scale))) in
  (if dsign r then [45%N] else [])
    ++ intpart ++ (if p is O then [] else 46%N :: fracpart).

(** The fragment [.<digits>f] of the format-specification
    mini-language; any other specifier is outside this model and is
    reported as the [ValueError] Python raises on a malformed one. *)
Fixpoint parse_precision (s : str) (acc : nat) : option nat :=
  match s with
  | [c] => if (c =? 102)%N then Some acc else None
  | c :: rest =>
      if is_digit c
      then parse_precision rest (acc * 10 + N.to_nat (c - 48))%nat
      else None
  | [] => None
  end.

Definition format (d : Decimal) (spec : str) : result str :=
  match spec with
  | 46%N :: c :: rest =>
      if is_digit c then
        match parse_precision (c :: rest) 0 with
        | Some p => Ok (format_fixed p d)
        | None => Raise (ValueError (lit "Invalid format specifier"))
        end
      else Raise (ValueError (lit "Invalid format specifier"))
  | _ => Raise (ValueError (lit "Invalid format specifier"))
  end.

End PyDecimal.

(* ===================================================================== *)
(** * [datetime.datetime] (naive) and [datetime.timedelta]                *)
(* ===================================================================== *)

Module PyDatetime.

Record datetime : Type := mkDatetime {
  year : Z; month : Z; day : Z;
  hour : Z; minute : Z; second : Z; microsecond : Z
}.

Definition is_leap (y : Z) : bool :=
  (y mod 4 =? 0) && (negb (y mod 100 =? 0) || (y mod 400 =? 0)).

Definition days_in_month (y m : Z) : Z :=
  if m =? 2 then (if is_leap y then 29 else 28)
  else if (m =? 4) || (m =? 6) || (m =? 9) || (m =? 11) then 30
  else 31.

Definition valid (dt : datetime) : Prop :=
  1 <= year dt <= 9999 /\ 1 <= month dt <= 12
  /\ 1 <= day dt <= days_in_month (year dt) (month dt)
  /\ 0 <= hour dt <= 23 /\ 0 <= minute dt <= 59
  /\ 0 <= second dt <= 59 /\ 0 <= microsecond dt <= 999999.

(** ** Ordering: field by field, most significant first *)

Definition fields (dt : datetime) : list Z :=
  [year dt; month dt; day dt; hour dt; minute dt; second dt; microsecond dt].

Fixpoint lex_leb (a b : list Z) : bool :=
  match a, b with
  | [], _ => true
  | _ :: _, [] => false
  | x :: a', y :: b' => (x <? y) || ((x =? y) && lex_leb a' b')
  end.

Definition leb (a b : datetime) : bool := lex_leb (fields a) (fields b).
Definition le (a b : datetime) : Prop := leb a b = true.

(** ** Proleptic Gregorian ordinals *)

Definition days_before_year (y : Z) : Z :=
  let y1 := y - 1 in y1 * 365 + y1 / 4 - y1 / 100 + y1 / 400.

Definition DAYS_BEFORE_MONTH (m : Z) : Z :=
  nth (Z.to_nat m) [0; 0; 31; 59; 90; 120; 151; 181; 212; 243; 273; 304; 334] 0.

Definition DAYS_IN_MONTH (m : Z) : Z :=
  nth (Z.to_nat m) [0; 31; 28; 31; 30; 31; 30; 31; 31; 30; 31; 30; 31] 0.

Definition days_before_month (y m : Z) : Z :=
  DAYS_BEFORE_MONTH m + (if (2 <? m) && is_leap y then 1 else 0).

Definition ymd2ord (y m d : Z) : Z :=
  days_before_year y + days_before_month y m + d.

Definition DI400Y : Z := 146097.
Definition DI100Y : Z := 36524.
Definition DI4Y : Z := 1461.
Definition MAXORDINAL : Z := 3652059.

Definition ord2ymd (n0 : Z) : Z * Z * Z :=
  let n := n0 - 1 in
  let n400 := n / DI400Y in
  let n := n mod DI400Y in
  let y := n400 * 400 + 1 in
  let n100 := n / DI100Y in
  let n := n mod DI100Y in
  let n4 := n / DI4Y in
  let n := n mod DI4Y in
  let n1 := n / 365 in
  let n := n mod 365 in
  let y := y + n100 * 100 + n4 * 4 + n1 in
  if (n1 =? 4) || (n100 =? 4) then (y - 1, 12, 31)
  else
    let leapyear := (n1 =? 3) && (negb (n4 =? 24) || (n100 =? 3)) in
    let m := Z.shiftr (n + 50) 5 in
    let preceding := DAYS_BEFORE_MONTH m + (if (2 <? m) && leapyear then 1 else 0) in
    if n <? preceding then
      let m := m - 1 in
      let preceding :=
        preceding - (DAYS_IN_MONTH m + (if (m =? 2) && leapyear then 1 else 0)) in
      (y, m, n - preceding + 1)
    else (y, m, n - preceding + 1).

Definition toordinal (dt : datetime) : Z := ymd2ord (year dt) (month dt) (day dt).

(** [timedelta(days=d)]: the number of days, range-checked. *)
Definition timedelta (d : Z) : result Z :=
  if 999999999 <? Z.abs d
  then Raise (OverflowError (lit "days; must have magnitude <= 999999999"))
  else Ok d.

(** [dt - delta] for a whole number of days: the ordinal moves, the
    time of day is kept. *)
Definition sub (dt : datetime) (delta : Z) : result datetime :=
  let o := toordinal dt - delta in
  if (0 <? o) && (o <=? MAXORDINAL) then
    let '(y, m, d) := ord2ymd o in
    Ok (mkDatetime y m d (hour dt) (minute dt) (second dt) (microsecond dt))
  else Raise (OverflowError (lit "date value out of range")).

(** ** [datetime.strftime]

    CPython hands the format to the C library's [strftime].  With glibc
    [%d], [%m], [%H], [%M] and [%S] are padded with zeros to two digits
    and [%Y] is the year as a plain decimal numeral: the years 1 to 999
    print with fewer than four digits
    ([datetime(5, 1, 2, 3, 4).strftime('%d/%m/%Y %H:%M')] is
    ['02/01/5 03:04']). *)

Definition directive (c : N) (dt : datetime) : option str :=
  if (c =? 100)%N then Some (pad_int 2 (day dt))          (* %d *)
  else if (c =? 109)%N then Some (pad_int 2 (month dt))   (* %m *)
  else if (c =? 89)%N then Some (int_str (year dt))       (* %Y: the year, not padded *)
  else if (c =? 72)%N then Some (pad_int 2 (hour dt))     (* %H *)
  else if (c =? 77)%N then Some (pad_int 2 (minute dt))   (* %M *)
  else if (c =? 83)%N then Some (pad_int 2 (second dt))   (* %S *)
  else if (c =? 37)%N then Some [37%N]                    (* %% *)
  else None.

Fixpoint strftime_scan (fmt : str) (dt : datetime) : result str :=
  match fmt with
  | [] => Ok []
  | c :: rest =>
      if (c =? 37)%N then
        match rest with
        | [] => Raise (ValueError (lit "Invalid format string"))
        | d :: rest' =>
            match directive d dt with
            | Some s => rbind (strftime_scan rest' dt) (fun out => Ok (s ++ out))
            | None => Raise (ValueError (lit "Invalid format string"))
            end
        end
      else rbind (strftime_scan rest dt) (fun out => Ok (c :: out))
  end.

Definition strftime (dt : datetime) (fmt : str) : result str :=
  strftime_scan fmt dt.

End PyDatetime.

(* ===================================================================== *)
(** * app/models.py                                                       *)
(* ===================================================================== *)

Module models.
Import PyDecimal PyDatetime.

Record Product : Type := mkProduct {
  product_id_ : Z;                 (* Product.id *)
  sku : str;
  name : str;
  description : option str;
  category : option str;
  price : Decimal;
  stock_quantity : Z
}.

Record Sale : Type := mkSale {
  sale_id : Z;                     (* Sale.id *)
  product_id : Z;
  customer_id : option Z;
  quantity : Z;
  unit_price : Decimal;
  total_amount : Decimal;
  sale_date : datetime;
  payment_method : option str
}.

(** ** The regular expression of [validate_sku]

    [re.match(r'^[A-Z0-9-]+$', sku)]: the character class, one or more
    times from the start, then [$], which Python satisfies at the end of
    the string and also just before a newline that ends the string. *)

Definition sku_class (c : N) : bool :=
  ((65 <=? c) && (c <=? 90) || (48 <=? c) && (c <=? 57) || (c =? 45))%N.

Fixpoint skip_class (s : str) : str :=
  match s with
  | [] => []
  | c :: rest => if sku_class c then skip_class rest else s
  end.

(** [$] at the current position, [rest] being what is left to read. *)
Definition at_dollar (rest : str) : bool :=
  match rest with
  | [] => true
  | [c] => (c =? NL)%N
  | _ => false
  end.

Definition re_match_sku (s : str) : bool :=
  match s with
  | [] => false
  | c :: _ => sku_class c && at_dollar (skip_class s)
  end.

(** [Product.validate_sku] *)
Definition validate_sku (sku : str) : result str :=
  if negb (re_match_sku sku) then
    Raise (ValueError (lit "SKU must contain only uppercase letters, numbers and hyphens"))
  else Ok sku.

(** [Sale.validate_quantity] *)
Definition validate_quantity (quantity : Z) : result Z :=
  if quantity <=? 0 then Raise (ValueError (lit "Quantity must be positive"))
  else Ok quantity.

(** [Sale.validate_prices] *)
Definition validate_prices (price : Decimal) : result Decimal :=
  if le_zero price then Raise (ValueError (lit "Price must be positive"))
  else PyDecimal.round price 2.

(** Construction through the mapped class: each attribute given to the
    constructor is assigned, and an assignment to a validated attribute
    stores what its validator returns. *)
Definition Product_init (id : Z) (sku name : str) (description category : option str)
    (price : Decimal) (stock_quantity : Z) : result Product :=
  rbind (validate_sku sku) (fun sku' =>
  Ok (mkProduct id sku' name description category price stock_quantity)).

Definition Sale_init (id product_id : Z) (customer_id : option Z) (quantity : Z)
    (unit_price total_amount : Decimal) (sale_date : datetime)
    (payment_method : option str) : result Sale :=
  rbind (validate_quantity quantity) (fun quantity' =>
  rbind (validate_prices unit_price) (fun unit_price' =>
  rbind (validate_prices total_amount) (fun total_amount' =>
  Ok (mkSale id product_id customer_id quantity' unit_price' total_amount'
             sale_date payment_method)))).

(** What the spec's pattern [[A-Z0-9-]+] asks of a whole SKU. *)
Definition sku_well_formed (s : str) : Prop :=
  s <> [] /\ Forall (fun c => sku_class c = true) s.

End models.

(* ===================================================================== *)
(** * The world of a request, its trace, and the coroutine monad          *)
(* ===================================================================== *)

Module Runtime.
Import PyDecimal PyDatetime models.

Inductive level : Type := DEBUG | INFO | ERROR | CRITICAL.

(** The statements the package sends to the storage engine. *)
Inductive statement : Type :=
| SelectSalesWithProduct (since : datetime)
| SelectTopProducts (since : datetime) (limit : Z).

(** Configuration of the provider client. *)
Record ChatOpenAI_t : Type := mkChatOpenAI {
  temperature : Z;
  model_name : str;
  openai_api_key : str
}.

(** What a request leaves behind, in chronological order. *)
Inductive event : Type :=
| Logged (lvl : level) (msg : str) (cause : option exn)
| SessionOpened
| SessionRolledBack
| SessionClosed
| Executed (stmt : statement)
| ClientCreated (client : ChatOpenAI_t)
| Generated (client : ChatOpenAI_t) (prompt : str).

Definition trace : Type := list event.

(** The collaborators of a request: process environment, clock, the
    tables behind the storage engine, and the text-generation provider. *)
Record world : Type := mkWorld {
  environ : gmap string str;
  clock : datetime;
  tbl_products : list Product;
  tbl_sales : list Sale;
  execute_fault : option exn;       (* raised by session.execute, if any *)
  generate : str -> result str      (* the provider's answer to a prompt *)
}.

Definition M (A : Type) : Type := world -> trace -> result A * trace.

Definition ret {A} (a : A) : M A := fun _ t => (Ok a, t).

Definition raise {A} (e : exn) : M A := fun _ t => (Raise e, t).

Definition bind {A B} (m : M A) (k : A -> M B) : M B :=
  fun w t =>
    match m w t with
    | (Ok a, t') => k a w t'
    | (Raise e, t') => (Raise e, t')
    end.

Definition lift {A} (r : result A) : M A := fun _ t => (r, t).

Definition emit (e : event) : M unit := fun _ t => (Ok tt, t ++ [e]).

Definition ask : M world := fun w t => (Ok w, t).

(** [try: body except ...: handler]; [handler e = None] when no
    [except] clause matches [e]. *)
Definition try_except {A} (body : M A) (handler : exn -> option (M A)) : M A :=
  fun w t =>
    match body w t with
    | (Ok a, t') => (Ok a, t')
    | (Raise e, t') =>
        match handler e with
        | Some h => h w t'
        | None => (Raise e, t')
        end
    end.

(** [try: body finally: cleanup] *)
Definition try_finally {A} (body : M A) (cleanup : M unit) : M A :=
  fun w t =>
    match body w t with
    | (r, t') =>
        match cleanup w t' with
        | (Ok _, t'') => (r, t'')
        | (Raise e, t'') => (Raise e, t'')
        end
    end.

(** Logging: the message and, where the source interpolates one, the
    exception it reports. *)
Definition log (lvl : level) (msg : str) (cause : option exn) : M unit :=
  emit (Logged lvl msg cause).

(** [datetime.now()] *)
Definition datetime_now : M datetime := fun w t => (Ok (clock w), t).

(** [os.getenv(name)] *)
Definition getenv (name : string) : M (option str) :=
  fun w t => (Ok (environ w !! name), t).

(** Python truthiness of an optional string: [None] and [''] are false. *)
Definition truthy (v : option str) : bool :=
  match v with
  | Some (_ :: _) => true
  | _ => false
  end.

(** Events of one kind in a trace. *)
Definition is_Generated (e : event) : bool :=
  match e with Generated _ _ => true | _ => false end.
Definition is_Executed (e : event) : bool :=
  match e with Executed _ => true | _ => false end.
Definition is_SessionOpened (e : event) : bool :=
  match e with SessionOpened => true | _ => false end.

Definition provider_calls (t : trace) : list event := List.filter is_Generated t.
Definition queries (t : trace) : list event := List.filter is_Executed t.
Definition sessions (t : trace) : list event := List.filter is_SessionOpened t.

End Runtime.

Declare Scope py_scope.
Delimit Scope py_scope with py.
Notation "'let*' x := m 'in' k" := (Runtime.bind m (fun x => k))
  (at level 10, x pattern, m at level 100, k at level 200) : py_scope.
Notation "m >> k" := (Runtime.bind m (fun _ => k))
  (at level 100, k at level 200, right associativity) : py_scope.
Open Scope py_scope.

(* ===================================================================== *)
(** * The provider client library (langchain), as the package uses it     *)
(* ===================================================================== *)

Module langchain.
Import Runtime.

(** [ChatOpenAI(temperature=.., model_name=.., openai_api_key=..)]: the
    key is the argument when given, the process environment otherwise;
    the client refuses to be built without one. *)
Definition ChatOpenAI (temperature : Z) (model_name : str)
    (openai_api_key : option str) : M ChatOpenAI_t :=
  let* from_env := getenv "OPENAI_API_KEY" in
  let key := if truthy openai_api_key then openai_api_key else from_env in
  match key with
  | Some (c :: k) =>
      let client := mkChatOpenAI temperature model_name (c :: k) in
      emit (ClientCreated client) >> ret client
  | _ =>
      raise (CollaboratorError (lit "ValidationError")
               (lit "Did not find openai_api_key"))
  end.

Record PromptTemplate : Type := mkPromptTemplate {
  input_variables : list str;
  template : str
}.

Record LLMChain : Type := mkLLMChain {
  llm : ChatOpenAI_t;
  prompt : PromptTemplate
}.

(** [await chain.arun(question=.., context=..)]: the template is filled in, the
    provider is asked once, and its text is the result. *)
Definition arun (chain : LLMChain) (kwargs : list (str * str)) : M str :=
  match PyStr.format (template (prompt chain)) kwargs with
  | None => raise (KeyError (lit "missing or malformed template field"))
  | Some text =>
      emit (Generated (llm chain) text) >>
      let* w := ask in
      lift (generate w text)
  end.

End langchain.

(* ===================================================================== *)
(** * app/database.py                                                     *)
(* ===================================================================== *)

Module database.
Import PyDecimal PyDatetime models Runtime.

(** ** The relational operators behind [session.execute] *)

(** [left JOIN right ON on] *)
Definition join_on {A B} (left : list A) (right : list B) (on : A -> B -> bool)
  : list (A * B) :=
  flat_map (fun a => map (pair a) (List.filter (on a) right)) left.

(** [WHERE cond] *)
Definition where_ {A} (cond : A -> bool) (rows : list A) : list A :=
  List.filter cond rows.

Definition later_first {A} (key : A -> datetime) : relation A :=
  fun a b => PyDatetime.le (key b) (key a).

Definition larger_first {A} (key : A -> Z) : relation A :=
  fun a b => key b <= key a.

#[global] Instance later_first_dec {A} (key : A -> datetime) :
  RelDecision (later_first key).
Proof. intros a b. unfold later_first, PyDatetime.le. apply _. Defined.

#[global] Instance larger_first_dec {A} (key : A -> Z) :
  RelDecision (larger_first key).
Proof. intros a b. unfold larger_first. apply _. Defined.

(** [ORDER BY key DESC]; rows with equal keys come in an order the
    engine chooses, here the one of its merge sort. *)
Definition order_by_date_desc {A} (key : A -> datetime) (rows : list A) : list A :=
  merge_sort (later_first key) rows.

Definition order_by_desc {A} (key : A -> Z) (rows : list A) : list A :=
  merge_sort (larger_first key) rows.

(** [SUM(column)] over integers *)
Definition list_sum_Z (l : list Z) : Z := fold_right Z.add 0 l.

(** [LIMIT n]: the first [n] rows.  SQLite, the engine of the default
    [DATABASE_URL], reads a negative [n] as no limit at all. *)
Definition limit_ {A} (n : Z) (rows : list A) : list A :=
  if n <? 0 then rows else take (Z.to_nat n) rows.

(** [GROUP BY name] with [SUM(quantity)] and [SUM(total_amount)]. *)
Definition group : Type := str * Z * Decimal.

Fixpoint add_to_group (nm : str) (q : Z) (amt : Decimal) (gs : list group)
  : list group :=
  match gs with
  | [] => [(nm, q, amt)]
  | (n, tq, ta) :: rest =>
      if decide (n = nm) then (n, tq + q, PyDecimal.add ta amt) :: rest
      else (n, tq, ta) :: add_to_group nm q amt rest
  end.

Definition group_by_name (rows : list (Product * Sale)) : list group :=
  fold_left
    (fun gs '(p, s) => add_to_group (name p) (quantity s) (total_amount s) gs)
    rows [].

(** The two statements of the package, evaluated on the tables. *)
Definition select_sales_with_product (w : world) (since : datetime)
  : list (Sale * Product) :=
  order_by_date_desc (fun r => sale_date (fst r))
    (where_ (fun r => PyDatetime.leb since (sale_date (fst r)))
       (join_on (tbl_sales w) (tbl_products w)
          (fun s p => product_id s =? product_id_ p))).

Definition select_top_products (w : world) (since : datetime) (limit : Z)
  : list group :=
  limit_ limit
    (order_by_desc (fun g => snd (fst g))
       (group_by_name
          (where_ (fun r => PyDatetime.leb since (sale_date (snd r)))
             (join_on (tbl_products w) (tbl_sales w)
                (fun p s => product_id s =? product_id_ p))))).

(** A session handle. *)
Inductive AsyncSession : Type := Session.

(** [await session.execute(stmt)] followed by [result.all()]. *)
Definition execute {A} (session : AsyncSession) (stmt : statement)
    (rows : world -> A) : M A :=
  emit (Executed stmt) >>
  let* w := ask in
  match execute_fault w with
  | Some e => raise e
  | None => ret (rows w)
  end.

(** [async with SessionLocal() as session: body] *)
Definition SessionLocal {A} (body : AsyncSession -> M A) : M A :=
  emit SessionOpened >> try_finally (body Session) (emit SessionClosed).

(** [get_db]: the session is lent to [use] at the [yield]. *)
Definition get_db {A} (use : AsyncSession -> M A) : M A :=
  SessionLocal (fun session =>
    try_finally
      (try_except (use session)
         (fun e => if is_Exception e
                   then Some (emit SessionRolledBack >> raise e)
                   else None))
      (emit SessionClosed)).

End database.

(* ===================================================================== *)
(** * app/services/sales_analyzer.py                                      *)
(* ===================================================================== *)

Module sales_analyzer.
Import PyDecimal PyDatetime models Runtime langchain database.

Record SalesAnalyzer : Type := mkSalesAnalyzer {
  self_llm : ChatOpenAI_t;
  self_chain : LLMChain
}.

(** The answer of [analyze_sales]: a dictionary with two keys. *)
Record Insight : Type := mkInsight {
  answer : str;
  context_used : str
}.

Definition INDENT : str := lit "            ".

Definition TEMPLATE : str :=
  [NL]
  ++ INDENT ++ lit "Você é um especialista em análise de vendas. " ++ [NL]
  ++ INDENT ++ lit "Responda à pergunta com base estritamente nos dados fornecidos." ++ [NL]
  ++ INDENT ++ [NL]
  ++ INDENT ++ lit "Diretrizes:" ++ [NL]
  ++ INDENT ++ lit "1. Seja conciso e preciso" ++ [NL]
  ++ INDENT ++ lit "2. Formate números e datas claramente" ++ [NL]
  ++ INDENT ++ lit "3. Se não houver dados relevantes, informe "
            ++ [DQUOTE] ++ lit "Não há dados suficientes" ++ [DQUOTE] ++ [NL]
  ++ INDENT ++ lit "4. Nunca invente informações" ++ [NL]
  ++ INDENT ++ [NL]
  ++ INDENT ++ lit "Pergunta: {question}" ++ [NL]
  ++ INDENT ++ [NL]
  ++ INDENT ++ lit "Dados de vendas do período:" ++ [NL]
  ++ INDENT ++ lit "{context}" ++ [NL]
  ++ INDENT ++ [NL]
  ++ INDENT ++ lit "Resposta:" ++ [NL]
  ++ INDENT.

Definition NO_SALES : str := lit "Nenhuma venda registrada no período solicitado.".

Definition _initialize_llm : M ChatOpenAI_t :=
  let* openai_api_key := getenv "OPENAI_API_KEY" in
  if negb (truthy openai_api_key) then
    log CRITICAL (lit "OPENAI_API_KEY environment variable not configured") None >>
    raise (RuntimeError (lit "OpenAI API key not configured"))
  else
    ChatOpenAI 0 (lit "gpt-3.5-turbo") openai_api_key.

Definition _create_analysis_chain (llm : ChatOpenAI_t) : LLMChain :=
  let prompt_template :=
    mkPromptTemplate [lit "question"; lit "context"] TEMPLATE in
  mkLLMChain llm prompt_template.

(** [SalesAnalyzer()] *)
Definition __init__ : M SalesAnalyzer :=
  let* llm := _initialize_llm in
  ret (mkSalesAnalyzer llm (_create_analysis_chain llm)).

Definition _get_sales_data (days : Z) : M (list (Sale * Product)) :=
  SessionLocal (fun session =>
    try_except
      (let* now := datetime_now in
       let* delta := lift (timedelta days) in
       let* start_date := lift (PyDatetime.sub now delta) in
       execute session (SelectSalesWithProduct start_date)
         (fun w => select_sales_with_product w start_date))
      (fun e =>
         if is_Exception e then
           Some (log ERROR (lit "Database error: ") (Some e) >>
                 raise (HTTPException HTTP_500_INTERNAL_SERVER_ERROR
                          (lit "Erro ao acessar dados históricos de vendas")))
         else None)).

(** One element of the generator inside [_format_context]. *)
Definition format_line (row : Sale * Product) : result str :=
  let '(sale, product) := row in
  rbind (PyDecimal.format (total_amount sale) (lit ".2f")) (fun amount =>
  rbind (strftime (sale_date sale) (lit "%d/%m/%Y %H:%M")) (fun when =>
  Ok (lit "- " ++ name product ++ lit ": " ++ int_str (quantity sale)
      ++ lit " unid. (R$" ++ amount ++ lit ") "
      ++ lit "em " ++ when))).

Fixpoint format_lines (rows : list (Sale * Product)) : result (list str) :=
  match rows with
  | [] => Ok []
  | row :: rest =>
      rbind (format_line row) (fun l =>
      rbind (format_lines rest) (fun ls => Ok (l :: ls)))
  end.

Definition _format_context (sales_data : list (Sale * Product)) : result str :=
  match sales_data with
  | [] => Ok NO_SALES
  | _ => rbind (format_lines sales_data) (fun lines => Ok (join [NL] lines))
  end.

Definition analyze_sales (self : SalesAnalyzer) (question : str) (days : Z)
  : M Insight :=
  try_except
    (let* sales_data := _get_sales_data days in
     let* context := lift (_format_context sales_data) in
     log INFO (lit "Analyzing question: " ++ question ++ lit " with "
               ++ int_str (Z.of_nat (length sales_data)) ++ lit " records") None >>
     let* response :=
       arun (self_chain self)
         [(lit "question", question); (lit "context", context)] in
     ret (mkInsight (strip response) context))
    (fun e =>
       if is_HTTPException e then Some (raise e)
       else if is_Exception e then
         Some (log ERROR (lit "Analysis error: ") (Some e) >>
               raise (HTTPException HTTP_500_INTERNAL_SERVER_ERROR
                        (lit "Erro ao gerar insights de vendas")))
       else None).

End sales_analyzer.

(* ===================================================================== *)
(** * app/langchain_service.py                                            *)
(* ===================================================================== *)

Module langchain_service.
Import PyDecimal PyDatetime models Runtime langchain database.

Record SalesAnalyzer : Type := mkSalesAnalyzer {
  self_llm : ChatOpenAI_t;
  self_prompt_template : PromptTemplate;
  self_chain : LLMChain
}.

Definition INDENT : str := lit "            ".

Definition TEMPLATE : str :=
  [NL]
  ++ INDENT ++ lit "Você é um especialista em análise de vendas. " ++ [NL]
  ++ INDENT ++ lit "Responda à pergunta com base estritamente nos dados fornecidos." ++ [NL]
  ++ INDENT ++ [NL]
  ++ INDENT ++ lit "Diretrizes:" ++ [NL]
  ++ INDENT ++ lit "1. Seja conciso e preciso" ++ [NL]
  ++ INDENT ++ lit "2. Formate números e datas claramente" ++ [NL]
  ++ INDENT ++ lit "3. Se não houver dados relevantes, informe "
            ++ [DQUOTE] ++ lit "Não há dados suficientes" ++ [DQUOTE] ++ [NL]
  ++ INDENT ++ lit "4. Nunca invente informações" ++ [NL]
  ++ INDENT ++ [NL]
  ++ INDENT ++ lit "Pergunta: {question}" ++ [NL]
  ++ INDENT ++ [NL]
  ++ INDENT ++ lit "Dados de vendas da última semana:" ++ [NL]
  ++ INDENT ++ lit "{context}" ++ [NL]
  ++ INDENT ++ [NL]
  ++ INDENT ++ lit "Resposta:" ++ [NL]
  ++ INDENT.

Definition NO_SALES : str := lit "Nenhuma venda registrada na última semana.".
Definition APOLOGY : str :=
  lit "Desculpe, ocorreu um erro ao processar sua solicitação.".

(** [SalesAnalyzer()] *)
Definition __init__ : M SalesAnalyzer :=
  let* llm := ChatOpenAI 0 (lit "gpt-3.5-turbo") None in
  let prompt_template :=
    mkPromptTemplate [lit "question"; lit "context"] TEMPLATE in
  ret (mkSalesAnalyzer llm prompt_template (mkLLMChain llm prompt_template)).

Definition _get_recent_sales_data (days : Z) : M (list (Sale * Product)) :=
  SessionLocal (fun session =>
    try_except
      (let* now := datetime_now in
       let* delta := lift (timedelta days) in
       let* last_week := lift (PyDatetime.sub now delta) in
       execute session (SelectSalesWithProduct last_week)
         (fun w => select_sales_with_product w last_week))
      (fun e =>
         if is_Exception e then
           Some (log ERROR (lit "Error fetching sales data: ") (Some e) >> raise e)
         else None)).

Definition format_line (row : Sale * Product) : result str :=
  let '(sale, product) := row in
  rbind (PyDecimal.format (total_amount sale) (lit ".2f")) (fun amount =>
  rbind (strftime (sale_date sale) (lit "%d/%m/%Y %H:%M")) (fun when =>
  Ok (lit "- " ++ name product ++ lit ": " ++ int_str (quantity sale)
      ++ lit " unid. (R$" ++ amount ++ lit ") "
      ++ lit "em " ++ when))).

(** The loop that appends to [context_lines]. *)
Fixpoint context_lines (rows : list (Sale * Product)) (acc : list str)
  : result (list str) :=
  match rows with
  | [] => Ok acc
  | row :: rest =>
      rbind (format_line row) (fun l => context_lines rest (acc ++ [l]))
  end.

Definition _format_sales_context (sales_data : list (Sale * Product)) : result str :=
  match sales_data with
  | [] => Ok NO_SALES
  | _ => rbind (context_lines sales_data []) (fun lines => Ok (join [NL] lines))
  end.

Definition analyze_sales_question (self : SalesAnalyzer) (question : str) : M str :=
  try_except
    (let* sales_data := _get_recent_sales_data 7 in
     let* context := lift (_format_sales_context sales_data) in
     log DEBUG (lit "Generated context: " ++ context) None >>
     let* response :=
       arun (self_chain self)
         [(lit "question", question); (lit "context", context)] in
     ret (strip response))
    (fun e =>
       if is_Exception e then
         Some (log ERROR (lit "Error processing question: ") (Some e) >>
               ret APOLOGY)
       else None).

(** ** Calling the bound method

    [analyze_sales_question(self, question)] has one positional parameter
    besides [self] and no default: any other number of positional
    arguments is a [TypeError], raised before the coroutine is created. *)

Inductive pyval : Type :=
| VStr (s : str)
| VInt (z : Z).

Definition py_str (v : pyval) : str :=
  match v with
  | VStr s => s
  | VInt z => int_str z
  end.

Definition analyze_sales_question_params : list string := ["question"%string].

Definition call_analyze_sales_question (self : SalesAnalyzer) (args : list pyval)
  : M str :=
  let given := length args in
  let expected := length analyze_sales_question_params in
  if (expected <? given)%nat then
    raise (TypeError
             (lit "SalesAnalyzer.analyze_sales_question() takes "
              ++ int_str (Z.of_nat (S expected))
              ++ lit " positional arguments but "
              ++ int_str (Z.of_nat (S given)) ++ lit " were given"))
  else
    match args with
    | [question] => analyze_sales_question self (py_str question)
    | _ =>
        raise (TypeError
                 (lit "SalesAnalyzer.analyze_sales_question() missing 1 required positional argument: 'question'"))
    end.

End langchain_service.

(* ===================================================================== *)
(** * app/main.py                                                         *)
(* ===================================================================== *)

Module main.
Import PyDecimal PyDatetime models Runtime langchain database.

(** What a name of the module's global namespace is bound to. *)
Inductive global : Type :=
| GSessionMaker        (* an async_sessionmaker: calling it gives a session *)
| GEngine
| GOther.              (* modules, classes, functions, the logger, the app *)

(** The names bound at module level by the imports, assignments, class
    and function definitions of main.py. *)
Definition module_globals : gmap string global :=
  list_to_map
    [("FastAPI", GOther); ("Query", GOther); ("HTTPException", GOther);
     ("Depends", GOther); ("CORSMiddleware", GOther); ("AsyncSession", GOther);
     ("select", GOther); ("func", GOther); ("datetime", GOther);
     ("timedelta", GOther); ("List", GOther); ("Dict", GOther);
     ("Optional", GOther); ("logging", GOther); ("engine", GEngine);
     ("SessionLocal", GSessionMaker); ("models", GOther);
     ("SalesAnalyzer", GOther); ("BaseModel", GOther); ("logger", GOther);
     ("app", GOther); ("TopProductResponse", GOther);
     ("SalesInsightResponse", GOther); ("get_db", GOther);
     ("startup", GOther); ("shutdown", GOther); ("sales_insights", GOther);
     ("top_products", GOther); ("health_check", GOther)]%string.

(** Reading a global name; [async_session] is no builtin either. *)
Definition load_global (nm : string) : M global :=
  match module_globals !! nm with
  | Some g => ret g
  | None =>
      raise (NameError (lit "name '" ++ lit nm ++ lit "' is not defined"))
  end.

(** [async with f() as session: body] for the object [f]. *)
Definition async_with_call {A} (f : global) (body : AsyncSession -> M A) : M A :=
  match f with
  | GSessionMaker => SessionLocal body
  | _ => raise (TypeError (lit "object is not callable"))
  end.

(** [get_db]: the session is lent to [use] at the [yield]. *)
Definition get_db {A} (use : AsyncSession -> M A) : M A :=
  let* async_session := load_global "async_session" in
  async_with_call async_session (fun session =>
    try_finally
      (try_except (use session)
         (fun e =>
            if is_Exception e then
              Some (log ERROR (lit "Database session error: ") (Some e) >>
                    emit SessionRolledBack >> raise e)
            else None))
      (emit SessionClosed)).

Record SalesInsightResponse : Type := mkSalesInsightResponse {
  answer : str;
  context_used : option str
}.

(** The body of the [/sales-insights] handler. *)
Definition sales_insights (question : str) (days : Z) : M SalesInsightResponse :=
  try_except
    (let* analyzer := langchain_service.__init__ in
     let* response :=
       langchain_service.call_analyze_sales_question analyzer
         [langchain_service.VStr question; langchain_service.VInt days] in
     ret (mkSalesInsightResponse response None))
    (fun e =>
       if is_Exception e then
         Some (log ERROR (lit "Error in sales_insights: ") (Some e) >>
               raise (HTTPException 500 (lit "Error processing your question")))
       else None).

Section top_products.

(** Python's binary floating point is left abstract: [round_float2 d]
    stands for [round(float(d), 2)]. *)
Variable pyfloat : Type.
Variable round_float2 : Decimal -> pyfloat.

Record TopProductResponse : Type := mkTopProductResponse {
  product : str;
  total_sold : Z;
  revenue : pyfloat
}.

(** The body of the [/top-products] handler, given its session. *)
Definition top_products (days limit : Z) (db : AsyncSession) : M (list TopProductResponse) :=
  try_except
    (let* now := datetime_now in
     let* delta := lift (timedelta days) in
     let* start_date := lift (PyDatetime.sub now delta) in
     let* products :=
       execute db (SelectTopProducts start_date limit)
         (fun w => select_top_products w start_date limit) in
     ret (map (fun '(name, total_quantity, total_revenue) =>
                 mkTopProductResponse name total_quantity (round_float2 total_revenue))
              products))
    (fun e =>
       if is_Exception e then
         Some (log ERROR (lit "Error in top_products: ") (Some e) >>
               raise (HTTPException 500 (lit "Error fetching top products")))
       else None).

(** The route: the framework resolves [Depends(get_db)] and runs the
    handler while the dependency is suspended at its [yield]. *)
Definition top_products_route (days limit : Z) : M (list TopProductResponse) :=
  get_db (fun db => top_products days limit db).

End top_products.

Arguments product {pyfloat} _.
Arguments total_sold {pyfloat} _.
Arguments revenue {pyfloat} _.

End main.

(* ===================================================================== *)
(** * The contracts of the specification, in its own words                *)
(* ===================================================================== *)

Module Spec.
Import PyDecimal PyDatetime models Runtime langchain database.

(** Fixed-width, zero-padded numbers. *)
Definition two_digits (n : Z) : str :=
  [digit_char (n / 10 mod 10); digit_char (n mod 10)].

Definition four_digits (n : Z) : str :=
  [digit_char (n / 1000 mod 10); digit_char (n / 100 mod 10);
   digit_char (n / 10 mod 10); digit_char (n mod 10)].



(** The amount in hundredths, halves rounded to even. *)
Definition hundredths (d : Decimal) : Z := Z.of_N (dcoef (rescale (-2) d)).

(** An amount with exactly two fractional digits. *)
Definition amount (d : Decimal) : str :=
  (if dsign d then lit "-" else [])
  ++ nat_digits (hundredths d / 100) ++ lit "." ++ two_digits (hundredths d mod 100).



Definition no_newline (s : str) : Prop := Forall (fun c => c <> NL) s.

(** The instruction template around its two fields. *)
Definition PROMPT_HEAD : str :=
  [NL]
  ++ lit "            Você é um especialista em análise de vendas. " ++ [NL]
  ++ lit "            Responda à pergunta com base estritamente nos dados fornecidos." ++ [NL]
  ++ lit "            " ++ [NL]
  ++ lit "            Diretrizes:" ++ [NL]
  ++ lit "            1. Seja conciso e preciso" ++ [NL]
  ++ lit "            2. Formate números e datas claramente" ++ [NL]
  ++ lit "            3. Se não houver dados relevantes, informe "
  ++ [DQUOTE] ++ lit "Não há dados suficientes" ++ [DQUOTE] ++ [NL]
  ++ lit "            4. Nunca invente informações" ++ [NL]
  ++ lit "            " ++ [NL]
  ++ lit "            Pergunta: ".

Definition PROMPT_MIDDLE : str :=
  [NL]
  ++ lit "            " ++ [NL]
  ++ lit "            Dados de vendas do período:" ++ [NL]
  ++ lit "            ".

Definition PROMPT_TAIL : str :=
  [NL]
  ++ lit "            " ++ [NL]
  ++ lit "            Resposta:" ++ [NL]
  ++ lit "            ".

Definition prompt_for (question context : str) : str :=
  PROMPT_HEAD ++ question ++ PROMPT_MIDDLE ++ context ++ PROMPT_TAIL.

(** Units of the product called [nm] sold since [since]. *)
Definition sold_since (w : world) (since : datetime) (nm : str) : Z :=
  list_sum_Z
    (map (fun r : Product * Sale => quantity (snd r))
       (List.filter
          (fun r : Product * Sale =>
             bool_decide (name (fst r) = nm)
             && PyDatetime.leb since (sale_date (snd r)))
          (join_on (tbl_products w) (tbl_sales w)
             (fun p s => product_id s =? product_id_ p)))).

(** The start of the window: [now - timedelta(days=days)]. *)
Definition window_start (w : world) (days : Z) : result datetime :=
  rbind (timedelta days) (fun delta => PyDatetime.sub (clock w) delta).

(** Most recent first. *)
Definition newest_first (a b : Sale * Product) : Prop :=
  PyDatetime.le (sale_date (fst b)) (sale_date (fst a)).

(** Largest total first. *)
Definition best_first {F : Type} (a b : main.TopProductResponse F) : Prop :=
  main.total_sold b <= main.total_sold a.

(** Bookkeeping on the groups of an aggregation. *)
Definition group_name (g : group) : str := fst (fst g).
Definition group_quantity (g : group) : Z := snd (fst g).

(** The response row built from a group. *)
Definition to_response {F : Type} (round_float2 : Decimal -> F) (g : group)
  : main.TopProductResponse F :=
  main.mkTopProductResponse F (group_name g) (group_quantity g) (round_float2 (snd g)).

Definition quantity_under (nm : str) (gs : list group) : Z :=
  list_sum_Z (map group_quantity
                (List.filter (fun g => bool_decide (group_name g = nm)) gs)).

Definition quantity_of_rows (nm : str) (rows : list (Product * Sale)) : Z :=
  list_sum_Z (map (fun r : Product * Sale => quantity (snd r))
                (List.filter (fun r : Product * Sale => bool_decide (name (fst r) = nm)) rows)).

(** The same world with another process environment. *)
Definition with_environ (env : gmap string str) (w : world) : world :=
  mkWorld env (clock w) (tbl_products w) (tbl_sales w) (execute_fault w) (generate w).

(** The credential is absent: unset, or set to the empty string. *)
Definition credential_absent (w : world) : Prop :=
  truthy (environ w !! "OPENAI_API_KEY"%string) = false.

Definition is_ClientCreated (e : event) : bool :=
  match e with ClientCreated _ => true | _ => false end.

Definition clients_built (t : trace) : list event := List.filter is_ClientCreated t.

(** The messages Python gives for the two defects of main.py. *)
Definition TOO_MANY_ARGUMENTS : str :=
  lit "SalesAnalyzer.analyze_sales_question() takes 2 positional arguments but 3 were given".

Definition ASYNC_SESSION_UNDEFINED : str :=
  lit "name 'async_session' is not defined".

End Spec.
Import Spec.

(* ===================================================================== *)
(** * Sample data                                                         *)
(* ===================================================================== *)

Module Samples.
Import PyDecimal PyDatetime models Runtime langchain database.

Definition money (hundredths : N) : Decimal := mkDecimal false hundredths (-2).

Definition widget : Product :=
  mkProduct 1 (lit "WID-1") (lit "Widget") None None (money 1000) 50.
Definition gadget : Product :=
  mkProduct 2 (lit "GAD-2") (lit "Gadget") None None (money 1000) 20.

Definition sale_widget : Sale :=
  mkSale 1 1 None 3 (money 1000) (money 3000) (mkDatetime 2024 1 15 10 30 0 0) None.
Definition sale_widget_2 : Sale :=
  mkSale 2 1 None 7 (money 1000) (money 7000) (mkDatetime 2024 1 12 9 5 0 0) None.
Definition sale_gadget : Sale :=
  mkSale 3 2 None 5 (money 1000) (money 5000) (mkDatetime 2024 1 16 18 45 0 0) None.
Definition sale_orphan : Sale :=
  mkSale 4 9 None 1 (money 1000) (money 1000) (mkDatetime 2024 1 16 8 0 0 0) None.
Definition sale_old : Sale :=
  mkSale 5 2 None 40 (money 1000) (money 40000) (mkDatetime 2023 6 1 8 0 0 0) None.


Definition provider (prompt : str) : result str :=
  Ok (lit "  Widget foi o mais vendido. " ++ [NL]).

Definition noon : datetime := mkDatetime 2024 1 17 12 0 0 0.

Definition healthy : world :=
  mkWorld {[ "OPENAI_API_KEY"%string := lit "sk-test" ]} noon
    [widget; gadget]
    [sale_widget; sale_widget_2; sale_gadget; sale_orphan; sale_old]
    None provider.

Definition storage_down : world :=
  mkWorld {[ "OPENAI_API_KEY"%string := lit "sk-test" ]} noon
    [widget; gadget]
    [sale_widget; sale_widget_2; sale_gadget; sale_orphan; sale_old]
    (Some (CollaboratorError (lit "OperationalError")
             (lit "unable to open database file")))
    provider.

Definition no_credential : world :=
  mkWorld ∅ noon [widget; gadget] [sale_widget] None provider.

Definition analyzer : sales_analyzer.SalesAnalyzer :=
  let llm := mkChatOpenAI 0 (lit "gpt-3.5-turbo") (lit "sk-test") in
  sales_analyzer.mkSalesAnalyzer llm (sales_analyzer._create_analysis_chain llm).

End Samples.

(* ===================================================================== *)
(** * Vocabulary for the behaviour of the remaining code                  *)
(* ===================================================================== *)

Module Behaviour.
Import PyDecimal PyDatetime models Runtime langchain database Spec.

(** The older template differs from the newer one in the line that heads
    the data. *)
Definition LEGACY_MIDDLE : str :=
  [NL]
  ++ lit "            " ++ [NL]
  ++ lit "            Dados de vendas da última semana:" ++ [NL]
  ++ lit "            ".

Definition legacy_prompt_for (question context : str) : str :=
  PROMPT_HEAD ++ question ++ LEGACY_MIDDLE ++ context ++ PROMPT_TAIL.

(** The day counts for which [now - timedelta(days=days)] does not exist. *)
Definition window_out_of_range (w : world) (days : Z) : Prop :=
  999999999 < Z.abs days
  \/ toordinal (clock w) - days <= 0
  \/ MAXORDINAL < toordinal (clock w) - days.

(** The two details under which the analyzer classifies a failure. *)
Definition FETCH_FAILED : str := lit "Erro ao acessar dados históricos de vendas".
Definition INSIGHT_FAILED : str := lit "Erro ao gerar insights de vendas".

(** Events that concern the session. *)
Definition is_session_event (e : event) : bool :=
  match e with
  | SessionOpened | SessionClosed | SessionRolledBack => true
  | _ => false
  end.

(** The message logged before the provider is asked. *)
Definition analyzing (question : str) (rows : list (Sale * Product)) : event :=
  Logged INFO
    (lit "Analyzing question: " ++ question ++ lit " with "
     ++ int_str (Z.of_nat (length rows)) ++ lit " records") None.

(** What [get_db] adds to the trace when the user of the session ends
    with [r]: a rollback exactly for an [Exception]. *)
Definition rollback_for {A} (r : result A) : list event :=
  match r with
  | Raise e => if is_Exception e then [SessionRolledBack] else []
  | Ok _ => []
  end.

(** [r] is [d] rounded to hundredths: exact when [d] has at most two
    fractional digits, and otherwise no further from [d] than half a
    hundredth.  Both are compared at the exponent of [d]. *)
Definition within_half_hundredth (d r : Decimal) : Prop :=
  if -2 <=? dexp d
  then Z.of_N (dcoef r) = Z.of_N (dcoef d) * 10 ^ (dexp d + 2)
  else 2 * Z.abs (Z.of_N (dcoef d) - Z.of_N (dcoef r) * 10 ^ (-2 - dexp d))
       <= 10 ^ (-2 - dexp d).

(** ** The calendar

    The conversion from ordinals to dates is checked day by day over one
    cycle of 400 years (146097 days); the other cycles repeat it. *)

Definition date_ok (n : Z) : bool :=
  let '(y, m, d) := ord2ymd n in
  (ymd2ord y m d =? n)
  && (1 <=? y) && (y <=? 400)
  && (1 <=? m) && (m <=? 12)
  && (1 <=? d) && (d <=? days_in_month y m)
  && ((145731 <? n) || (y <=? 399)).

Fixpoint all_from (k : nat) (n : Z) : bool :=
  match k with
  | O => true
  | S k' => if date_ok n then all_from k' (n + 1) else false
  end.

(** Microseconds since the start of day 0 of the proleptic calendar. *)
Definition instant (dt : datetime) : Z :=
  (((toordinal dt * 24 + hour dt) * 60 + minute dt) * 60 + second dt) * 1000000
  + microsecond dt.

Definition MICROSECONDS_PER_DAY : Z := 86400000000.

End Behaviour.
Import Behaviour.

(* ===================================================================== *)
(** * Properties of the runtime fragments                                 *)
(* ===================================================================== *)

Import PyDecimal PyDatetime models Runtime langchain database.

(** ** Printing integers *)

Lemma digit_char_is_digit (n : Z) : is_digit (digit_char (n mod 10)) = true.
Proof.
  unfold is_digit, digit_char.
  assert (0 <= n mod 10 < 10) by (apply Z.mod_pos_bound; lia).
  apply andb_true_iff; split; apply N.leb_le; lia.
Qed.

Lemma digit_char_value (n : Z) : Z.of_N (digit_char (n mod 10)) - 48 = n mod 10.
Proof.
  unfold digit_char.
  assert (0 <= n mod 10 < 10) by (apply Z.mod_pos_bound; lia).
  lia.
Qed.


Lemma digits_aux_app (fuel : nat) :
  forall n acc, digits_aux fuel n acc = digits_aux fuel n [] ++ acc.
Proof.
  induction fuel as [|f IH]; intros n acc; simpl.
  - reflexivity.
  - destruct (n <? 10); [reflexivity|].
    rewrite (IH _ (_ :: acc)), (IH _ [_]), <- app_assoc. reflexivity.
Qed.


Lemma nat_digits_nonempty (n : Z) : nat_digits n <> [].
Proof.
  unfold nat_digits. rewrite digits_aux_app.
  destruct (Z.to_nat (Z.log2 n)); simpl.
  - discriminate.
  - destruct (n <? 10); simpl; [discriminate|].
    rewrite digits_aux_app. destruct (digits_aux _ _ []); discriminate.
Qed.

(** The fuel of [nat_digits] is enough: reading the digits back gives the
    number. *)
Lemma digits_aux_value (fuel : nat) :
  forall n acc,
    0 <= n < 10 * 2 ^ Z.of_nat fuel ->
    digits_value (digits_aux fuel n acc)
    = fold_left (fun a c => a * 10 + (Z.of_N c - 48)) acc n.
Proof.
  unfold digits_value.
  induction fuel as [|f IH]; intros n acc Hn.
  - simpl in *. rewrite digit_char_value, Z.mod_small by lia. reflexivity.
  - cbn [digits_aux]. destruct (Z.ltb_spec n 10) as [Hlt|Hge].
    + simpl. rewrite digit_char_value, Z.mod_small by lia. reflexivity.
    + assert (Hpow : 0 < 2 ^ Z.of_nat f) by (apply Z.pow_pos_nonneg; lia).
      rewrite IH.
      * simpl. rewrite digit_char_value.
        f_equal. pose proof (Z.div_mod n 10). lia.
      * rewrite Nat2Z.inj_succ, Z.pow_succ_r in Hn by lia.
        split; [apply Z.div_pos; lia|].
        apply Z.div_lt_upper_bound; lia.
Qed.

Lemma nat_digits_value (n : Z) : 0 <= n -> digits_value (nat_digits n) = n.
Proof.
  intros Hn. unfold nat_digits. rewrite digits_aux_value; [reflexivity|].
  split; [exact Hn|].
  destruct (Z.eq_dec n 0) as [->|Hnz]; [simpl; lia|].
  rewrite Z2Nat.id by apply Z.log2_nonneg.
  pose proof (Z.log2_spec n ltac:(lia)) as [_ Hub].
  rewrite Z.pow_succ_r in Hub by apply Z.log2_nonneg. lia.
Qed.

Lemma digits_aux_fuel (f1 : nat) :
  forall f2 n acc,
    0 <= n < 10 * 2 ^ Z.of_nat f1 -> n < 10 * 2 ^ Z.of_nat f2 ->
    digits_aux f1 n acc = digits_aux f2 n acc.
Proof.
  induction f1 as [|f1 IH]; intros [|f2] n acc H1 H2; cbn [digits_aux].
  - reflexivity.
  - destruct (Z.ltb_spec n 10); [reflexivity | simpl in H1; lia].
  - destruct (Z.ltb_spec n 10); [reflexivity | simpl in H2; lia].
  - destruct (Z.ltb_spec n 10); [reflexivity|].
    assert (0 < 2 ^ Z.of_nat f1) by (apply Z.pow_pos_nonneg; lia).
    assert (0 < 2 ^ Z.of_nat f2) by (apply Z.pow_pos_nonneg; lia).
    rewrite Nat2Z.inj_succ, Z.pow_succ_r in H1, H2 by lia.
    apply IH.
    + split; [apply Z.div_pos; lia | apply Z.div_lt_upper_bound; lia].
    + apply Z.div_lt_upper_bound; lia.
Qed.

Lemma nat_digits_small (n : Z) :
  0 <= n < 10 -> nat_digits n = [digit_char (n mod 10)].
Proof.
  intros Hn. unfold nat_digits.
  destruct (Z.to_nat (Z.log2 n)); cbn [digits_aux]; [reflexivity|].
  destruct (Z.ltb_spec n 10); [reflexivity | lia].
Qed.

Lemma nat_digits_step (n : Z) :
  10 <= n -> nat_digits n = nat_digits (n / 10) ++ [digit_char (n mod 10)].
Proof.
  intros Hn. unfold nat_digits.
  assert (Hlog : 3 <= Z.log2 n).
  { change 3 with (Z.log2 8). apply Z.log2_le_mono. lia. }
  pose proof (Z.log2_spec n ltac:(lia)) as [Hlo Hhi].
  destruct (Z.to_nat (Z.log2 n)) as [|f] eqn:Hf; [lia|].
  cbn [digits_aux]. destruct (Z.ltb_spec n 10); [lia|].
  rewrite digits_aux_app. f_equal.
  assert (Hq : 0 <= n / 10) by (apply Z.div_pos; lia).
  assert (Hfz : Z.of_nat f = Z.log2 n - 1) by lia.
  apply digits_aux_fuel.
  - split; [exact Hq|]. rewrite Hfz.
    apply Z.div_lt_upper_bound; [lia|].
    replace (Z.succ (Z.log2 n)) with (Z.log2 n - 1 + 2) in Hhi by lia.
    rewrite Z.pow_add_r in Hhi by lia.
    assert (0 < 2 ^ (Z.log2 n - 1)) by (apply Z.pow_pos_nonneg; lia). lia.
  - destruct (Z.eq_dec (n / 10) 0) as [->|Hnz]; [simpl; lia|].
    rewrite Z2Nat.id by apply Z.log2_nonneg.
    pose proof (Z.log2_spec (n / 10) ltac:(lia)) as [_ Hub].
    rewrite Z.pow_succ_r in Hub by apply Z.log2_nonneg. lia.
Qed.

Lemma pad_int_2 (n : Z) : 0 <= n < 100 -> pad_int 2 n = two_digits n.
Proof.
  intros Hn. unfold pad_int, two_digits.
  destruct (Z.ltb_spec n 0); [lia|].
  destruct (Z_lt_le_dec n 10) as [Hs|Hb].
  - rewrite nat_digits_small by lia.
    rewrite (Z.div_small n 10) by lia. reflexivity.
  - rewrite nat_digits_step by lia.
    assert (0 <= n / 10 < 10).
    { split; [apply Z.div_pos; lia | apply Z.div_lt_upper_bound; lia]. }
    rewrite nat_digits_small by lia. reflexivity.
Qed.


(** ** Rendering amounts and timestamps *)

Lemma rescale_sign (e : Z) (d : Decimal) : dsign (rescale e d) = dsign d.
Proof. unfold rescale. destruct (e <=? dexp d); reflexivity. Qed.

Lemma rescale_exp (e : Z) (d : Decimal) : dexp (rescale e d) = e.
Proof. unfold rescale. destruct (e <=? dexp d); reflexivity. Qed.

Lemma format_2f (d : Decimal) :
  PyDecimal.format d (lit ".2f") = Ok (format_fixed 2 d).
Proof. reflexivity. Qed.

Lemma format_fixed_2 (d : Decimal) : format_fixed 2 d = amount d.
Proof.
  unfold format_fixed, amount, hundredths.
  change (- Z.of_nat 2) with (-2). change (pow10 (Z.of_nat 2)) with 100%N.
  rewrite rescale_sign.
  set (c := dcoef (rescale (-2) d)).
  rewrite N2Z.inj_div, N2Z.inj_mod. change (Z.of_N 100) with 100.
  assert (Hm : 0 <= Z.of_N c mod 100 < 100) by (apply Z.mod_pos_bound; lia).
  pose proof (pad_int_2 _ Hm) as Hp. unfold pad_int in Hp.
  destruct (Z.ltb_spec (Z.of_N c mod 100) 0); [lia|].
  cbn match. rewrite Hp. destruct (dsign d); reflexivity.
Qed.

Lemma strftime_context_format (dt : datetime) :
  strftime dt (lit "%d/%m/%Y %H:%M")
  = Ok (pad_int 2 (day dt) ++ lit "/" ++ pad_int 2 (month dt) ++ lit "/"
        ++ int_str (year dt) ++ lit " "
        ++ pad_int 2 (hour dt) ++ lit ":" ++ pad_int 2 (minute dt)).
Proof.
  unfold strftime.
  let f := eval vm_compute in (lit "%d/%m/%Y %H:%M") in
  change (lit "%d/%m/%Y %H:%M") with f.
  transitivity
    (Ok (A:=str)
       (pad_int 2 (day dt) ++ 47%N :: pad_int 2 (month dt) ++ 47%N
        :: int_str (year dt) ++ 32%N :: pad_int 2 (hour dt) ++ 58%N
        :: pad_int 2 (minute dt) ++ [])); [reflexivity|].
  rewrite app_nil_r. reflexivity.
Qed.



(** ** The context formatter *)

Lemma format_line_total (row : Sale * Product) :
  sales_analyzer.format_line row
  = Ok (lit "- " ++ name (snd row) ++ lit ": " ++ int_str (quantity (fst row))
        ++ lit " unid. (R$" ++ amount (total_amount (fst row)) ++ lit ") em "
        ++ pad_int 2 (day (sale_date (fst row))) ++ lit "/"
        ++ pad_int 2 (month (sale_date (fst row))) ++ lit "/"
        ++ int_str (year (sale_date (fst row))) ++ lit " "
        ++ pad_int 2 (hour (sale_date (fst row))) ++ lit ":"
        ++ pad_int 2 (minute (sale_date (fst row)))).
Proof.
  destruct row as [sale product]. unfold sales_analyzer.format_line.
  rewrite format_2f, strftime_context_format, format_fixed_2.
  reflexivity.
Qed.


Lemma format_lines_total (rows : list (Sale * Product)) :
  exists ls, sales_analyzer.format_lines rows = Ok ls /\ length ls = length rows.
Proof.
  induction rows as [|row rows (ls & IH & Hlen)]; simpl.
  - exists []. split; reflexivity.
  - rewrite format_line_total. simpl. rewrite IH. simpl.
    eexists. split; [reflexivity|]. simpl. rewrite Hlen. reflexivity.
Qed.





Lemma digits_no_newline (s : str) :
  Forall (fun c => is_digit c = true) s -> no_newline s.
Proof.
  unfold no_newline. intros H. eapply Forall_impl; [exact H|].
  intros c Hc ->. discriminate Hc.
Qed.



Lemma four_digits_no_newline (n : Z) : no_newline (four_digits n).
Proof.
  apply digits_no_newline. unfold four_digits.
  repeat constructor; apply digit_char_is_digit.
Qed.









Lemma context_lines_acc (rows : list (Sale * Product)) :
  forall acc,
    langchain_service.context_lines rows acc
    = rbind (sales_analyzer.format_lines rows) (fun ls => Ok (acc ++ ls)).
Proof.
  induction rows as [|row rows IH]; intros acc; simpl.
  - rewrite app_nil_r. reflexivity.
  - change (langchain_service.format_line row) with (sales_analyzer.format_line row).
    destruct (sales_analyzer.format_line row) as [l|e]; simpl; [|reflexivity].
    rewrite IH. destruct (sales_analyzer.format_lines rows); simpl; [|reflexivity].
    rewrite <- app_assoc. reflexivity.
Qed.

Lemma legacy_format_matches (rows : list (Sale * Product)) :
  rows <> [] ->
  langchain_service._format_sales_context rows = sales_analyzer._format_context rows.
Proof.
  intros Hne. destruct rows as [|row rows]; [contradiction|].
  unfold langchain_service._format_sales_context, sales_analyzer._format_context.
  rewrite context_lines_acc.
  destruct (sales_analyzer.format_lines (row :: rows)); reflexivity.
Qed.







(** ** The record store accessor *)

Ltac unfold_monad :=
  unfold SessionLocal, execute, log, try_finally, try_except, bind, emit,
    datetime_now, lift, ask, ret, raise, getenv in *.

Lemma get_sales_data_cases (days : Z) (w : world) (t : trace) :
  sales_analyzer._get_sales_data days w t =
  match window_start w days with
  | Ok start =>
      match execute_fault w with
      | None =>
          (Ok (select_sales_with_product w start),
           t ++ [SessionOpened; Executed (SelectSalesWithProduct start); SessionClosed])
      | Some e =>
          if is_Exception e then
            (Raise (HTTPException 500 (lit "Erro ao acessar dados históricos de vendas")),
             t ++ [SessionOpened; Executed (SelectSalesWithProduct start);
                   Logged ERROR (lit "Database error: ") (Some e); SessionClosed])
          else
            (Raise e,
             t ++ [SessionOpened; Executed (SelectSalesWithProduct start); SessionClosed])
      end
  | Raise e =>
      if is_Exception e then
        (Raise (HTTPException 500 (lit "Erro ao acessar dados históricos de vendas")),
         t ++ [SessionOpened; Logged ERROR (lit "Database error: ") (Some e); SessionClosed])
      else (Raise e, t ++ [SessionOpened; SessionClosed])
  end.
Proof.
  unfold sales_analyzer._get_sales_data, window_start. unfold_monad.
  destruct (timedelta days) as [delta|e]; cbn [rbind].
  - destruct (PyDatetime.sub (clock w) delta) as [start|e].
    + destruct (execute_fault w) as [e|].
      * destruct (is_Exception e); rewrite <- ?app_assoc; reflexivity.
      * rewrite <- ?app_assoc; reflexivity.
    + destruct (is_Exception e); rewrite <- ?app_assoc; reflexivity.
  - destruct (is_Exception e); rewrite <- ?app_assoc; reflexivity.
Qed.

Lemma get_recent_sales_data_cases (days : Z) (w : world) (t : trace) :
  langchain_service._get_recent_sales_data days w t =
  match window_start w days with
  | Ok start =>
      match execute_fault w with
      | None =>
          (Ok (select_sales_with_product w start),
           t ++ [SessionOpened; Executed (SelectSalesWithProduct start); SessionClosed])
      | Some e =>
          if is_Exception e then
            (Raise e,
             t ++ [SessionOpened; Executed (SelectSalesWithProduct start);
                   Logged ERROR (lit "Error fetching sales data: ") (Some e);
                   SessionClosed])
          else
            (Raise e,
             t ++ [SessionOpened; Executed (SelectSalesWithProduct start); SessionClosed])
      end
  | Raise e =>
      if is_Exception e then
        (Raise e,
         t ++ [SessionOpened; Logged ERROR (lit "Error fetching sales data: ") (Some e);
               SessionClosed])
      else (Raise e, t ++ [SessionOpened; SessionClosed])
  end.
Proof.
  unfold langchain_service._get_recent_sales_data, window_start. unfold_monad.
  destruct (timedelta days) as [delta|e]; cbn [rbind].
  - destruct (PyDatetime.sub (clock w) delta) as [start|e].
    + destruct (execute_fault w) as [e|].
      * destruct (is_Exception e); rewrite <- ?app_assoc; reflexivity.
      * rewrite <- ?app_assoc; reflexivity.
    + destruct (is_Exception e); rewrite <- ?app_assoc; reflexivity.
  - destruct (is_Exception e); rewrite <- ?app_assoc; reflexivity.
Qed.

(** Timestamps are totally ordered. *)
Lemma lex_leb_total (a : list Z) :
  forall b, lex_leb a b = true \/ lex_leb b a = true.
Proof.
  induction a as [|x a IH]; intros [|y b]; simpl; auto.
  destruct (IH b) as [H|H]; rewrite H;
    destruct (Z.ltb_spec x y), (Z.ltb_spec y x), (Z.eqb_spec x y), (Z.eqb_spec y x);
    simpl; auto; lia.
Qed.

Lemma lex_leb_trans (a : list Z) :
  forall b c, lex_leb a b = true -> lex_leb b c = true -> lex_leb a c = true.
Proof.
  induction a as [|x a IH]; intros [|y b] [|z c]; simpl; auto; try discriminate.
  intros H1 H2.
  apply orb_true_iff in H1. apply orb_true_iff in H2. apply orb_true_iff.
  destruct H1 as [H1|H1], H2 as [H2|H2];
    rewrite ?andb_true_iff, ?Z.ltb_lt, ?Z.eqb_eq in *.
  - left. lia.
  - left. lia.
  - left. lia.
  - right. destruct H1 as [-> H1], H2 as [-> H2]. split; [reflexivity|].
    eapply IH; eassumption.
Qed.

#[global] Instance datetime_le_total : Total PyDatetime.le.
Proof. intros a b. apply lex_leb_total. Qed.

#[global] Instance datetime_le_trans : Transitive PyDatetime.le.
Proof. intros a b c. apply lex_leb_trans. Qed.

#[global] Instance later_first_total {A} (key : A -> datetime) : Total (later_first key).
Proof. intros a b. unfold later_first. destruct (datetime_le_total (key a) (key b)); auto. Qed.

#[global] Instance later_first_trans {A} (key : A -> datetime) :
  Transitive (later_first key).
Proof. intros a b c H1 H2. unfold later_first in *. etransitivity; eassumption. Qed.

#[global] Instance larger_first_total {A} (key : A -> Z) : Total (larger_first key).
Proof. intros a b. unfold larger_first. lia. Qed.

#[global] Instance larger_first_trans {A} (key : A -> Z) : Transitive (larger_first key).
Proof. intros a b c. unfold larger_first. lia. Qed.

Lemma order_by_date_desc_sorted {A} (key : A -> datetime) (rows : list A) :
  StronglySorted (later_first key) (order_by_date_desc key rows).
Proof. apply StronglySorted_merge_sort; apply _. Qed.

Lemma order_by_date_desc_In {A} (key : A -> datetime) (rows : list A) (x : A) :
  In x (order_by_date_desc key rows) <-> In x rows.
Proof.
  unfold order_by_date_desc.
  pose proof (merge_sort_Permutation (later_first key) rows) as HP.
  split; apply Permutation_in; [exact HP | symmetry; exact HP].
Qed.

Lemma order_by_desc_sorted {A} (key : A -> Z) (rows : list A) :
  StronglySorted (larger_first key) (order_by_desc key rows).
Proof. apply StronglySorted_merge_sort; apply _. Qed.

Lemma order_by_desc_perm {A} (key : A -> Z) (rows : list A) :
  Permutation (order_by_desc key rows) rows.
Proof. apply merge_sort_Permutation. Qed.

Lemma join_on_In {A B} (l : list A) (r : list B) (on : A -> B -> bool) (a : A) (b : B) :
  In (a, b) (join_on l r on) <-> In a l /\ In b r /\ on a b = true.
Proof.
  unfold join_on. rewrite in_flat_map. split.
  - intros (a' & Ha & Hab). apply in_map_iff in Hab as (b' & [= -> ->] & Hb).
    apply filter_In in Hb as [Hb Hon]. auto.
  - intros (Ha & Hb & Hon). exists a. split; [exact Ha|].
    apply in_map_iff. exists b. split; [reflexivity|].
    apply filter_In. auto.
Qed.

Lemma select_sales_with_product_In (w : world) (since : datetime) (s : Sale) (p : Product) :
  In (s, p) (select_sales_with_product w since)
  <-> In s (tbl_sales w) /\ In p (tbl_products w)
      /\ product_id s = product_id_ p /\ PyDatetime.le since (sale_date s).
Proof.
  unfold select_sales_with_product, where_.
  rewrite order_by_date_desc_In, filter_In, join_on_In. cbn [fst].
  rewrite Z.eqb_eq. unfold PyDatetime.le. tauto.
Qed.

Lemma select_sales_with_product_sorted (w : world) (since : datetime) :
  StronglySorted newest_first (select_sales_with_product w since).
Proof. apply (order_by_date_desc_sorted (fun r : Sale * Product => sale_date (fst r))). Qed.

(** ** The window start exists for every admissible day count *)

Lemma days_before_year_lower (y : Z) : 1 <= y -> 365 * (y - 1) <= days_before_year y.
Proof. intros Hy. unfold days_before_year. Z.div_mod_to_equations. lia. Qed.

Lemma days_before_year_upper (y : Z) :
  1 <= y <= 9998 -> days_before_year y + 366 <= MAXORDINAL.
Proof.
  intros Hy. unfold days_before_year, MAXORDINAL. Z.div_mod_to_equations. lia.
Qed.

Lemma month_cases (m : Z) :
  1 <= m <= 12 ->
  m = 1 \/ m = 2 \/ m = 3 \/ m = 4 \/ m = 5 \/ m = 6
  \/ m = 7 \/ m = 8 \/ m = 9 \/ m = 10 \/ m = 11 \/ m = 12.
Proof. lia. Qed.

Lemma day_of_year_bounds (y m d : Z) :
  1 <= m <= 12 -> 1 <= d <= days_in_month y m ->
  1 <= days_before_month y m + d <= 365 + (if is_leap y then 1 else 0).
Proof.
  intros Hm Hd. unfold days_before_month, days_in_month in *.
  destruct (is_leap y);
    destruct (month_cases m Hm) as [->|[->|[->|[->|[->|[->|[->|[->|[->|[->|[->| ->]]]]]]]]]]];
    match type of Hd with
    | _ <= _ <= ?c => let v := eval vm_compute in c in change c with v in Hd
    end;
    match goal with
    | |- _ <= ?a + d <= ?c =>
        let va := eval vm_compute in a in
        let vc := eval vm_compute in c in
        change (1 <= va + d <= vc)
    end; lia.
Qed.

Lemma toordinal_bounds (dt : datetime) :
  PyDatetime.valid dt ->
  365 * (year dt - 1) + 1 <= toordinal dt <= MAXORDINAL.
Proof.
  intros (Hy & Hm & Hd & _). unfold toordinal, ymd2ord.
  pose proof (day_of_year_bounds _ _ _ Hm Hd) as Hb.
  pose proof (days_before_year_lower (year dt) ltac:(lia)) as Hl.
  split; [lia|].
  destruct (Z.eq_dec (year dt) 9999) as [E|E].
  - rewrite E in *. change (is_leap 9999) with false in Hb.
    change (days_before_year 9999) with 3651694. unfold MAXORDINAL. lia.
  - pose proof (days_before_year_upper (year dt) ltac:(lia)).
    destruct (is_leap (year dt)); lia.
Qed.

Lemma window_start_ok (w : world) (days : Z) :
  PyDatetime.valid (clock w) -> 2 <= year (clock w) -> 0 < days <= 365 ->
  exists start, window_start w days = Ok start.
Proof.
  intros Hv Hy Hd. unfold window_start, timedelta.
  destruct (Z.ltb_spec 999999999 (Z.abs days)); [lia|]. cbn [rbind].
  unfold PyDatetime.sub.
  pose proof (toordinal_bounds _ Hv) as [Hlo Hhi].
  destruct (Z.ltb_spec 0 (toordinal (clock w) - days)); [|lia].
  destruct (Z.leb_spec (toordinal (clock w) - days) MAXORDINAL); [|lia].
  cbn [andb]. destruct (ord2ymd _) as [[y m] d]. eexists. reflexivity.
Qed.

(** C2. The record store accessor: whatever it returns for a positive day
    count lies inside the window that starts at now - days, comes most
    recent first, and pairs every sale with a product of the catalogue
    whose id the sale references, so that a sale without such a product is
    never returned; every sale of the window that has its product is
    returned.  With the engine answering and an admissible day count it
    does return.  The older copy of the accessor returns the same rows. *)
Theorem C2_fetch_recent_sales_window_order_join :
  forall (days : Z) (w : world) (t : trace),
    0 < days ->
    (forall rows t',
        sales_analyzer._get_sales_data days w t = (Ok rows, t')
        \/ langchain_service._get_recent_sales_data days w t = (Ok rows, t') ->
        exists start,
          window_start w days = Ok start
          /\ Forall (fun r => PyDatetime.le start (sale_date (fst r))) rows
          /\ StronglySorted newest_first rows
          /\ Forall (fun r => In (fst r) (tbl_sales w) /\ In (snd r) (tbl_products w)
                              /\ product_id (fst r) = product_id_ (snd r)) rows
          /\ (forall s, In s (tbl_sales w) ->
                (forall p, In p (tbl_products w) -> product_id s <> product_id_ p) ->
                ~ In s (map fst rows))
          /\ (forall s p, In s (tbl_sales w) -> In p (tbl_products w) ->
                product_id s = product_id_ p -> PyDatetime.le start (sale_date s) ->
                In (s, p) rows))
    /\ (execute_fault w = None -> days <= 365 ->
        PyDatetime.valid (clock w) -> 2 <= year (clock w) ->
        exists rows t',
          sales_analyzer._get_sales_data days w t = (Ok rows, t')
          /\ langchain_service._get_recent_sales_data days w t = (Ok rows, t')).
Proof.
  intros days w t Hdays. split.
  - intros rows t' Hret.
    assert (Hrows : exists start, window_start w days = Ok start
                                  /\ rows = select_sales_with_product w start).
    { destruct Hret as [Hret|Hret].
      - rewrite get_sales_data_cases in Hret.
        destruct (window_start w days) as [start|e].
        + destruct (execute_fault w) as [e|].
          * destruct (is_Exception e); discriminate Hret.
          * injection Hret as <- _. eauto.
        + destruct (is_Exception e); discriminate Hret.
      - rewrite get_recent_sales_data_cases in Hret.
        destruct (window_start w days) as [start|e].
        + destruct (execute_fault w) as [e|].
          * destruct (is_Exception e); discriminate Hret.
          * injection Hret as <- _. eauto.
        + destruct (is_Exception e); discriminate Hret. }
    destruct Hrows as (start & Hstart & ->). exists start.
    split; [exact Hstart|].
    split; [|split; [|split; [|split]]].
    + apply List.Forall_forall. intros [s p] Hin.
      apply select_sales_with_product_In in Hin. tauto.
    + apply select_sales_with_product_sorted.
    + apply List.Forall_forall. intros [s p] Hin.
      apply select_sales_with_product_In in Hin. cbn [fst snd]. tauto.
    + intros s Hs Hnone Hin. apply in_map_iff in Hin as ([s' p] & <- & Hin).
      apply select_sales_with_product_In in Hin as (_ & Hp & Hid & _).
      exact (Hnone p Hp Hid).
    + intros s p Hs Hp Hid Hle. apply select_sales_with_product_In. tauto.
  - intros Hok Hle Hv Hy.
    destruct (window_start_ok w days Hv Hy ltac:(lia)) as [start Hstart].
    exists (select_sales_with_product w start).
    eexists. rewrite get_sales_data_cases, get_recent_sales_data_cases, Hstart, Hok.
    split; reflexivity.
Qed.

Lemma noon_valid : PyDatetime.valid Samples.noon.
Proof. repeat split; vm_compute; intro; discriminate. Qed.

Lemma C2_witness :
  exists rows t' start,
    sales_analyzer._get_sales_data 7 Samples.healthy [] = (Ok rows, t')
    /\ window_start Samples.healthy 7 = Ok start
    /\ StronglySorted newest_first rows
    /\ Forall (fun r => PyDatetime.le start (sale_date (fst r))) rows.
Proof.
  destruct (C2_fetch_recent_sales_window_order_join 7 Samples.healthy [] ltac:(lia))
    as [Hsafe Htotal].
  destruct (Htotal eq_refl ltac:(lia) noon_valid ltac:(vm_compute; intro; discriminate))
    as (rows & t' & H1 & _).
  destruct (Hsafe rows t' (or_introl H1)) as (start & Hs & Hwin & Hsorted & _).
  exists rows, t', start. auto.
Defined.

(** Scenario B of the specification, evaluated. *)
Example scenario_B_line :
  sales_analyzer._format_context [(Samples.sale_widget, Samples.widget)]
  = Ok (lit "- Widget: 3 unid. (R$30.00) em 15/01/2024 10:30").
Proof. vm_compute. reflexivity. Qed.


(** ** The aggregate query *)

Lemma list_sum_Z_app (a b : list Z) : list_sum_Z (a ++ b) = list_sum_Z a + list_sum_Z b.
Proof. unfold list_sum_Z. induction a as [|x a IH]; simpl; lia. Qed.

Lemma quantity_under_cons (n : str) (g : group) (gs : list group) :
  quantity_under n (g :: gs)
  = (if bool_decide (group_name g = n) then group_quantity g else 0)
    + quantity_under n gs.
Proof.
  unfold quantity_under. cbn [List.filter].
  destruct (bool_decide (group_name g = n)); cbn [map]; unfold list_sum_Z; cbn; lia.
Qed.

Lemma add_to_group_quantity (nm n : str) (q : Z) (amt : Decimal) (gs : list group) :
  quantity_under n (add_to_group nm q amt gs)
  = quantity_under n gs + (if bool_decide (nm = n) then q else 0).
Proof.
  induction gs as [|[[g tq] ta] gs IH]; cbn [add_to_group].
  - rewrite quantity_under_cons. unfold group_name, group_quantity. cbn [fst snd].
    change (quantity_under n []) with 0. lia.
  - destruct (decide (g = nm)) as [->|Hne].
    + rewrite !quantity_under_cons. unfold group_name, group_quantity. cbn [fst snd].
      destruct (bool_decide (nm = n)); lia.
    + rewrite !quantity_under_cons, IH. unfold group_name, group_quantity. cbn [fst snd].
      lia.
Qed.

Lemma add_to_group_names (nm : str) (q : Z) (amt : Decimal) (gs : list group) :
  map group_name (add_to_group nm q amt gs)
  = if bool_decide (nm ∈ map group_name gs)
    then map group_name gs else map group_name gs ++ [nm].
Proof.
  induction gs as [|[[g tq] ta] gs IH]; cbn [add_to_group].
  - rewrite bool_decide_eq_false_2 by (cbn; apply not_elem_of_nil). reflexivity.
  - destruct (decide (g = nm)) as [->|Hne].
    + rewrite bool_decide_eq_true_2 by (cbn; apply elem_of_cons; left; reflexivity).
      reflexivity.
    + cbn [map]. rewrite IH.
      change (group_name (g, tq, ta)) with g.
      destruct (bool_decide (nm ∈ map group_name gs)) eqn:E.
      * apply bool_decide_eq_true_1 in E.
        rewrite bool_decide_eq_true_2 by (apply elem_of_cons; right; exact E).
        reflexivity.
      * apply bool_decide_eq_false_1 in E.
        rewrite bool_decide_eq_false_2; [reflexivity|].
        intros H. apply elem_of_cons in H as [H|H]; [exact (Hne (eq_sym H)) | exact (E H)].
Qed.

Lemma add_to_group_NoDup (nm : str) (q : Z) (amt : Decimal) (gs : list group) :
  NoDup (map group_name gs) ->
  NoDup (map group_name (add_to_group nm q amt gs)).
Proof.
  intros Hnd. rewrite add_to_group_names.
  destruct (bool_decide (nm ∈ map group_name gs)) eqn:E; [exact Hnd|].
  apply bool_decide_eq_false_1 in E.
  apply NoDup_app. split; [exact Hnd|]. split.
  - intros x Hx Hx'. apply list_elem_of_singleton in Hx'. subst x. exact (E Hx).
  - apply NoDup_singleton.
Qed.

Lemma quantity_of_rows_cons (n : str) (r : Product * Sale) (rows : list (Product * Sale)) :
  quantity_of_rows n (r :: rows)
  = (if bool_decide (name (fst r) = n) then quantity (snd r) else 0)
    + quantity_of_rows n rows.
Proof.
  unfold quantity_of_rows. cbn [List.filter].
  destruct (bool_decide (name (fst r) = n)); cbn [map]; unfold list_sum_Z; cbn; lia.
Qed.

Lemma group_by_quantity (rows : list (Product * Sale)) :
  forall gs n,
    quantity_under n
      (fold_left
         (fun gs '(p, s) => add_to_group (name p) (quantity s) (total_amount s) gs)
         rows gs)
    = quantity_under n gs + quantity_of_rows n rows.
Proof.
  induction rows as [|[p s] rows IH]; intros gs n; cbn [fold_left].
  - change (quantity_of_rows n []) with 0. lia.
  - rewrite IH, add_to_group_quantity, quantity_of_rows_cons. cbn [fst snd]. lia.
Qed.

Lemma group_by_NoDup (rows : list (Product * Sale)) :
  forall gs,
    NoDup (map group_name gs) ->
    NoDup (map group_name
             (fold_left
                (fun gs '(p, s) => add_to_group (name p) (quantity s) (total_amount s) gs)
                rows gs)).
Proof.
  induction rows as [|[p s] rows IH]; intros gs Hnd; cbn [fold_left].
  - exact Hnd.
  - apply IH, add_to_group_NoDup, Hnd.
Qed.

Lemma quantity_under_absent (n : str) (gs : list group) :
  n ∉ map group_name gs -> quantity_under n gs = 0.
Proof.
  induction gs as [|g gs IH]; intros Hn.
  - reflexivity.
  - rewrite quantity_under_cons. cbn [map] in Hn.
    apply not_elem_of_cons in Hn as [Hne Hn].
    rewrite bool_decide_eq_false_2 by congruence. rewrite IH by exact Hn. lia.
Qed.

Lemma quantity_under_member (g : group) (gs : list group) :
  NoDup (map group_name gs) -> g ∈ gs ->
  quantity_under (group_name g) gs = group_quantity g.
Proof.
  induction gs as [|g0 gs IH]; intros Hnd Hin.
  - apply elem_of_nil in Hin. contradiction.
  - cbn [map] in Hnd. apply NoDup_cons in Hnd as [Hfresh Hnd].
    rewrite quantity_under_cons. apply elem_of_cons in Hin as [->|Hin].
    + rewrite bool_decide_eq_true_2 by reflexivity.
      rewrite quantity_under_absent by exact Hfresh. lia.
    + rewrite bool_decide_eq_false_2.
      * rewrite IH by assumption. lia.
      * intros E. apply Hfresh. rewrite E.
        apply list_elem_of_fmap. exists g. split; [reflexivity | exact Hin].
Qed.

Lemma filter_filter_bool {A} (f g : A -> bool) (l : list A) :
  List.filter f (List.filter g l) = List.filter (fun x => f x && g x) l.
Proof.
  induction l as [|x l IH]; cbn [List.filter]; [reflexivity|].
  destruct (g x); cbn [List.filter]; rewrite ?andb_true_r, ?andb_false_r;
    [destruct (f x)|]; rewrite IH; reflexivity.
Qed.

Lemma add_to_group_name_In (nm n : str) (q : Z) (amt : Decimal) (gs : list group) :
  n ∈ map group_name (add_to_group nm q amt gs) <-> n ∈ map group_name gs \/ n = nm.
Proof.
  rewrite add_to_group_names.
  destruct (bool_decide (nm ∈ map group_name gs)) eqn:E.
  - apply bool_decide_eq_true_1 in E. split; [auto|]. intros [H| ->]; assumption.
  - rewrite elem_of_app, list_elem_of_singleton. reflexivity.
Qed.

Lemma group_by_name_In (rows : list (Product * Sale)) :
  forall gs n,
    n ∈ map group_name
          (fold_left
             (fun gs '(p, s) => add_to_group (name p) (quantity s) (total_amount s) gs)
             rows gs)
    <-> n ∈ map group_name gs \/ exists r, In r rows /\ name (fst r) = n.
Proof.
  induction rows as [|[p s] rows IH]; intros gs n; cbn [fold_left].
  - split; [auto|]. intros [H|(r & [] & _)]. exact H.
  - rewrite IH, add_to_group_name_In. split.
    + intros [[H| ->]|(r & Hr & Hn)]; [auto| |].
      * right. exists (p, s). split; [left; reflexivity | reflexivity].
      * right. exists r. split; [right; exact Hr | exact Hn].
    + intros [H|(r & [<-|Hr] & Hn)]; [auto| |].
      * left. right. symmetry. exact Hn.
      * right. exists r. auto.
Qed.

(** [LIMIT] keeps a prefix of the rows, and a full one whenever it leaves
    rows out. *)
Lemma limit_split {A} (n : Z) (rows : list A) :
  exists rest,
    rows = limit_ n rows ++ rest
    /\ (rest <> [] -> Z.of_nat (length (limit_ n rows)) = n).
Proof.
  unfold limit_. destruct (Z.ltb_spec n 0) as [Hneg|Hpos].
  - exists []. split; [rewrite app_nil_r; reflexivity|]. intros H. contradiction.
  - exists (drop (Z.to_nat n) rows). split; [rewrite take_drop; reflexivity|].
    intros Hrest. rewrite length_take.
    assert (Hlt : (Z.to_nat n < length rows)%nat).
    { destruct (Nat.lt_ge_cases (Z.to_nat n) (length rows)) as [H|H]; [exact H|].
      exfalso. apply Hrest. apply drop_ge. exact H. }
    destruct (Nat.min_spec (Z.to_nat n) (length rows)) as [[_ E]|[Hge E]];
      rewrite E; lia.
Qed.

Lemma limit_length {A} (n : Z) (rows : list A) :
  0 <= n -> (length (limit_ n rows) <= Z.to_nat n)%nat.
Proof.
  intros Hn. unfold limit_. destruct (Z.ltb_spec n 0); [lia|].
  rewrite length_take.
  destruct (Nat.min_spec (Z.to_nat n) (length rows)) as [[_ E]|[_ E]]; rewrite E; lia.
Qed.

Ltac name_ranking sorted :=
  match goal with
  | |- context [@limit_ ?T ?n ?x] =>
      change (@limit_ T n x) with (@limit_ group n sorted)
  end.

(** What the aggregate statement returns. *)
Lemma select_top_products_spec (w : world) (since : datetime) (limit : Z) :
  let gs := select_top_products w since limit in
  (0 <= limit -> (length gs <= Z.to_nat limit)%nat)
  /\ StronglySorted (larger_first group_quantity) gs
  /\ NoDup (map group_name gs)
  /\ Forall (fun g => group_quantity g = sold_since w since (group_name g)) gs.
Proof.
  unfold select_top_products.
  set (joined := where_ _ _).
  set (sorted := order_by_desc (fun g : group => snd (fst g)) (group_by_name joined)).
  assert (Hnd_g : NoDup (map group_name (group_by_name joined))).
  { apply group_by_NoDup. constructor. }
  assert (Hperm : Permutation sorted (group_by_name joined)).
  { apply order_by_desc_perm. }
  assert (Hnd : NoDup (map group_name sorted)).
  { eapply NoDup_Permutation_proper; [|exact Hnd_g].
    apply fmap_Permutation. exact Hperm. }
  assert (Hq : Forall (fun g => group_quantity g = sold_since w since (group_name g)) sorted).
  { apply Forall_forall. intros g Hg.
    rewrite Hperm in Hg.
    rewrite <- (quantity_under_member g _ Hnd_g Hg).
    unfold group_by_name. rewrite group_by_quantity.
    change (quantity_under (group_name g) []) with 0.
    unfold quantity_of_rows, sold_since, joined, where_.
    rewrite filter_filter_bool. reflexivity. }
  assert (Hsorted : StronglySorted (larger_first group_quantity) sorted).
  { apply (order_by_desc_sorted (fun g : group => snd (fst g))). }
  destruct (limit_split limit sorted) as (rest & Hsplit & _).
  cbv zeta. name_ranking sorted.
  split; [intros Hl; apply limit_length; exact Hl|].
  generalize dependent (limit_ limit sorted). intros top Hsplit.
  rewrite Hsplit in Hsorted, Hnd, Hq.
  split; [|split].
  - eapply StronglySorted_app_1_l. exact Hsorted.
  - rewrite fmap_app in Hnd. apply NoDup_app in Hnd as [H _]. exact H.
  - apply Forall_app in Hq as [H _]. exact H.
Qed.

(** Every group returned is the name of a product with a sale in the
    window. *)
Lemma select_top_products_sound (w : world) (since : datetime) (limit : Z) :
  Forall (fun g => exists p s,
            In p (tbl_products w) /\ In s (tbl_sales w)
            /\ product_id s = product_id_ p
            /\ PyDatetime.le since (sale_date s)
            /\ name p = group_name g)
         (select_top_products w since limit).
Proof.
  unfold select_top_products.
  set (joined := where_ _ _).
  set (sorted := order_by_desc (fun g : group => snd (fst g)) (group_by_name joined)).
  assert (Hperm : Permutation sorted (group_by_name joined)) by apply order_by_desc_perm.
  destruct (limit_split limit sorted) as (rest & Hsplit & _).
  name_ranking sorted.
  apply Forall_forall. intros g Hg.
  assert (Hin : g ∈ group_by_name joined).
  { rewrite <- Hperm, Hsplit. apply elem_of_app. left. exact Hg. }
  assert (Hn : group_name g ∈ map group_name (group_by_name joined)).
  { apply list_elem_of_fmap. exists g. split; [reflexivity | exact Hin]. }
  unfold group_by_name in Hn. apply group_by_name_In in Hn as [Hn|([p s] & Hr & Hname)].
  - apply elem_of_nil in Hn. contradiction.
  - unfold joined, where_ in Hr. apply filter_In in Hr as [Hr Hle].
    apply join_on_In in Hr as (Hp & Hs & Hid). apply Z.eqb_eq in Hid.
    exists p, s. cbn [fst snd] in *. auto.
Qed.

(** Every product name with a sale in the window is returned, unless the
    limit is reached by groups that sold at least as much. *)
Lemma select_top_products_complete (w : world) (since : datetime) (limit : Z)
    (p : Product) (s : Sale) :
  In p (tbl_products w) -> In s (tbl_sales w) ->
  product_id s = product_id_ p -> PyDatetime.le since (sale_date s) ->
  name p ∈ map group_name (select_top_products w since limit)
  \/ (Z.of_nat (length (select_top_products w since limit)) = limit
      /\ Forall (fun g => sold_since w since (name p) <= group_quantity g)
           (select_top_products w since limit)).
Proof.
  intros Hp Hs Hid Hle.
  unfold select_top_products.
  set (joined := where_ (fun r : Product * Sale => PyDatetime.leb since (sale_date (snd r)))
                   (join_on (tbl_products w) (tbl_sales w)
                      (fun p s => product_id s =? product_id_ p))).
  set (sorted := order_by_desc (fun g : group => snd (fst g)) (group_by_name joined)).
  assert (Hnd_g : NoDup (map group_name (group_by_name joined))).
  { apply group_by_NoDup. constructor. }
  assert (Hperm : Permutation sorted (group_by_name joined)) by apply order_by_desc_perm.
  assert (Hrow : In (p, s) joined).
  { unfold joined, where_. apply filter_In. split.
    - apply join_on_In. rewrite Z.eqb_eq. auto.
    - exact Hle. }
  assert (Hname : name p ∈ map group_name (group_by_name joined)).
  { unfold group_by_name. apply group_by_name_In. right.
    exists (p, s). split; [exact Hrow | reflexivity]. }
  apply list_elem_of_fmap in Hname as (g & Hg & Hgin).
  assert (Hq : group_quantity g = sold_since w since (name p)).
  { rewrite <- (quantity_under_member g _ Hnd_g Hgin), <- Hg.
    unfold group_by_name. rewrite group_by_quantity.
    change (quantity_under (group_name g) []) with 0.
    unfold quantity_of_rows, sold_since, joined, where_.
    rewrite filter_filter_bool. reflexivity. }
  assert (Hsorted : StronglySorted (larger_first group_quantity) sorted).
  { apply (order_by_desc_sorted (fun g : group => snd (fst g))). }
  rewrite <- Hperm in Hgin.
  destruct (limit_split limit sorted) as (rest & Hsplit & Hfull).
  name_ranking sorted.
  generalize dependent (limit_ limit sorted). intros top Hsplit Hfull.
  rewrite Hsplit in Hgin, Hsorted.
  apply elem_of_app in Hgin as [Hin|Hout].
  - left. rewrite Hg. apply list_elem_of_fmap. exists g. auto.
  - right. split.
    + apply Hfull. intros ->. apply elem_of_nil in Hout. contradiction.
    + apply Forall_forall. intros g' Hg'.
      pose proof (StronglySorted_app_1_elem_of _ _ _ _ _ Hsorted Hg' Hout) as Hrel.
      unfold larger_first in Hrel. lia.
Qed.

Section top_products_facts.
Context {F : Type} (round_float2 : Decimal -> F).

Local Abbreviation to_response := (Spec.to_response round_float2).

Lemma top_products_cases (days limit : Z) (db : AsyncSession) (w : world) (t : trace) :
  main.top_products F round_float2 days limit db w t =
  match window_start w days with
  | Ok start =>
      match execute_fault w with
      | None =>
          (Ok (map to_response (select_top_products w start limit)),
           t ++ [Executed (SelectTopProducts start limit)])
      | Some e =>
          if is_Exception e then
            (Raise (HTTPException 500 (lit "Error fetching top products")),
             t ++ [Executed (SelectTopProducts start limit);
                   Logged ERROR (lit "Error in top_products: ") (Some e)])
          else (Raise e, t ++ [Executed (SelectTopProducts start limit)])
      end
  | Raise e =>
      if is_Exception e then
        (Raise (HTTPException 500 (lit "Error fetching top products")),
         t ++ [Logged ERROR (lit "Error in top_products: ") (Some e)])
      else (Raise e, t)
  end.
Proof.
  unfold main.top_products, window_start. unfold_monad.
  destruct (timedelta days) as [delta|e]; cbn [rbind].
  - destruct (PyDatetime.sub (clock w) delta) as [start|e].
    + destruct (execute_fault w) as [e|].
      * destruct (is_Exception e); rewrite <- ?app_assoc; reflexivity.
      * f_equal. f_equal. apply map_ext. intros [[n q] a]. reflexivity.
    + destruct (is_Exception e); reflexivity.
  - destruct (is_Exception e); reflexivity.
Qed.

Lemma to_response_sorted (gs : list group) :
  StronglySorted (larger_first group_quantity) gs ->
  StronglySorted best_first (map to_response gs).
Proof.
  induction 1 as [|g gs _ IH Hall]; cbn [map]; constructor.
  - exact IH.
  - apply Forall_map. eapply Forall_impl; [exact Hall|].
    intros g' Hg'. exact Hg'.
Qed.

End top_products_facts.

(** C4. The top-products query: for positive day count and limit, what the
    handler returns has at most [limit] rows, one row per product name,
    each the name of a product with a sale inside the window and carrying
    the units of that name sold inside the window, the totals never
    increasing along the sequence.  These rows are the top of the window:
    every product name with a sale inside the window is returned, unless
    the sequence already has [limit] rows and each of them sold at least as
    many units.  With the engine answering and an admissible day count it
    does return. *)
Theorem C4_top_products_limit_order_groups :
  forall (F : Type) (round_float2 : Decimal -> F)
         (days limit : Z) (db : AsyncSession) (w : world) (t : trace),
    0 < days -> 0 < limit ->
    (forall res t',
        main.top_products F round_float2 days limit db w t = (Ok res, t') ->
        exists start,
          window_start w days = Ok start
          /\ Z.of_nat (length res) <= limit
          /\ StronglySorted best_first res
          /\ NoDup (map main.product res)
          /\ Forall (fun r => main.total_sold r = sold_since w start (main.product r)) res
          /\ Forall (fun r => exists p s,
                        In p (tbl_products w) /\ In s (tbl_sales w)
                        /\ product_id s = product_id_ p
                        /\ PyDatetime.le start (sale_date s)
                        /\ name p = main.product r) res
          /\ (forall (p : Product) (s : Sale),
                 In p (tbl_products w) -> In s (tbl_sales w) ->
                 product_id s = product_id_ p -> PyDatetime.le start (sale_date s) ->
                 name p ∈ map main.product res
                 \/ (Z.of_nat (length res) = limit
                     /\ Forall (fun r => sold_since w start (name p) <= main.total_sold r)
                          res)))
    /\ (execute_fault w = None -> days <= 365 ->
        PyDatetime.valid (clock w) -> 2 <= year (clock w) ->
        exists res t', main.top_products F round_float2 days limit db w t = (Ok res, t')).
Proof.
  intros F rf days limit db w t Hdays Hlimit. split.
  - intros res t' Hret. rewrite top_products_cases in Hret.
    destruct (window_start w days) as [start|e].
    2:{ destruct (is_Exception e); discriminate Hret. }
    destruct (execute_fault w) as [e|].
    { destruct (is_Exception e); discriminate Hret. }
    injection Hret as <- _. exists start. split; [reflexivity|].
    destruct (select_top_products_spec w start limit) as (Hlen & Hsorted & Hnd & Hq).
    split; [|split; [|split; [|split; [|split]]]].
    + rewrite length_map. specialize (Hlen ltac:(lia)). lia.
    + apply to_response_sorted. exact Hsorted.
    + rewrite map_map. exact Hnd.
    + apply Forall_map. eapply Forall_impl; [exact Hq|].
      intros g Hg. exact Hg.
    + apply Forall_map. eapply Forall_impl; [apply select_top_products_sound|].
      intros g Hg. exact Hg.
    + intros p s Hp Hs Hid Hle. rewrite length_map, map_map.
      destruct (select_top_products_complete w start limit p s Hp Hs Hid Hle)
        as [Hin|[Hfull Hall]].
      * left. exact Hin.
      * right. split; [exact Hfull|]. apply Forall_map. exact Hall.
  - intros Hok Hle Hv Hy.
    destruct (window_start_ok w days Hv Hy ltac:(lia)) as [start Hstart].
    eexists. eexists. rewrite top_products_cases, Hstart, Hok. reflexivity.
Qed.

Lemma C4_witness :
  exists res t' start,
    main.top_products Decimal (rescale (-2)) 30 1 Session Samples.healthy [] = (Ok res, t')
    /\ window_start Samples.healthy 30 = Ok start
    /\ Z.of_nat (length res) <= 1
    /\ StronglySorted best_first res
    /\ (exists r, r ∈ res /\ 10 <= main.total_sold r).
Proof.
  destruct (C4_top_products_limit_order_groups Decimal (rescale (-2)) 30 1 Session
              Samples.healthy [] ltac:(lia) ltac:(lia)) as [Hsafe Htotal].
  destruct (Htotal eq_refl ltac:(lia) noon_valid ltac:(vm_compute; intro; discriminate))
    as (res & t' & H).
  destruct (Hsafe res t' H) as (start & Hs & Hlen & Hsorted & _ & Hq & _ & Hcomplete).
  exists res, t', start.
  split; [exact H|]. split; [exact Hs|]. split; [exact Hlen|]. split; [exact Hsorted|].
  assert (Hs' := Hs). vm_compute in Hs'. injection Hs' as <-.
  assert (Hten : sold_since Samples.healthy (mkDatetime 2023 12 18 12 0 0 0)
                   (name Samples.widget) = 10) by (vm_compute; reflexivity).
  destruct (Hcomplete Samples.widget Samples.sale_widget) as [Hin|[Hfull Hall]].
  - left. reflexivity.
  - left. reflexivity.
  - reflexivity.
  - vm_compute. reflexivity.
  - apply list_elem_of_fmap in Hin as (r & Hname & Hr). exists r. split; [exact Hr|].
    rewrite Forall_forall in Hq. rewrite (Hq r Hr), <- Hname, Hten. lia.
  - destruct res as [|r res]; [discriminate Hfull|]. exists r.
    split; [apply elem_of_cons; left; reflexivity|].
    apply Forall_inv in Hall. rewrite Hten in Hall. exact Hall.
Defined.

(** The top-products scenario of the specification, evaluated: the widget
    (10 units) beats the gadget (5 units inside the window) and the limit
    keeps one row. *)
Example scenario_top_products :
  fst (main.top_products Decimal (rescale (-2)) 30 1 Session Samples.healthy [])
  = Ok [main.mkTopProductResponse Decimal (lit "Widget") 10 (Samples.money 10000)].
Proof. vm_compute. reflexivity. Qed.

(** ** The insight generator *)

Lemma provider_calls_app (t1 t2 : trace) :
  provider_calls (t1 ++ t2) = provider_calls t1 ++ provider_calls t2.
Proof. apply List.filter_app. Qed.

Lemma get_sales_data_no_provider_call (days : Z) (w : world) (t : trace) :
  provider_calls (snd (sales_analyzer._get_sales_data days w t)) = provider_calls t.
Proof.
  rewrite get_sales_data_cases.
  destruct (window_start w days) as [start|e];
    [destruct (execute_fault w) as [e|]; [destruct (is_Exception e)|]
    | destruct (is_Exception e)];
    cbn [snd]; rewrite provider_calls_app; apply app_nil_r.
Qed.

(** C1. When the fetch inside [analyze_sales] fails with an error that is
    already classified (an [HTTPException]), [analyze_sales] raises that
    very error, with the same status and detail, leaves the trace as the
    fetch left it, and so never asks the provider. *)
Theorem C1_classified_fetch_error_propagates :
  forall (self : sales_analyzer.SalesAnalyzer) (question : str) (days : Z)
         (w : world) (t t' : trace) (status : Z) (detail : str),
    sales_analyzer._get_sales_data days w t = (Raise (HTTPException status detail), t') ->
    sales_analyzer.analyze_sales self question days w t
    = (Raise (HTTPException status detail), t')
    /\ provider_calls t' = provider_calls t.
Proof.
  intros self question days w t t' status detail Hfetch. split.
  - unfold sales_analyzer.analyze_sales, try_except, bind.
    rewrite Hfetch. reflexivity.
  - pose proof (get_sales_data_no_provider_call days w t) as H.
    rewrite Hfetch in H. exact H.
Qed.

Lemma C1_witness :
  exists t',
    sales_analyzer.analyze_sales Samples.analyzer (lit "What sold best?") 7
      Samples.storage_down []
    = (Raise (HTTPException 500 (lit "Erro ao acessar dados históricos de vendas")), t')
    /\ provider_calls t' = provider_calls [].
Proof.
  pose (r := sales_analyzer._get_sales_data 7 Samples.storage_down []).
  assert (H : r = (Raise (HTTPException 500
                            (lit "Erro ao acessar dados históricos de vendas")), snd r))
    by (vm_compute; reflexivity).
  exists (snd r).
  exact (C1_classified_fetch_error_propagates Samples.analyzer (lit "What sold best?") 7
           Samples.storage_down [] (snd r) 500 _ H).
Defined.

(** Scenario C of the specification: the engine fails while the query
    runs; the caller sees the classified error of the accessor and the
    provider is never asked. *)
Lemma scenario_C_storage_failure
    (self : sales_analyzer.SalesAnalyzer) (question : str) (days : Z)
    (w : world) (t : trace) (e : exn) (start : datetime) :
  execute_fault w = Some e -> is_Exception e = true ->
  window_start w days = Ok start ->
  sales_analyzer.analyze_sales self question days w t
  = (Raise (HTTPException 500 (lit "Erro ao acessar dados históricos de vendas")),
     t ++ [SessionOpened; Executed (SelectSalesWithProduct start);
           Logged ERROR (lit "Database error: ") (Some e); SessionClosed]).
Proof.
  intros Hfault Hexc Hstart.
  unfold sales_analyzer.analyze_sales, try_except, bind.
  rewrite get_sales_data_cases, Hstart, Hfault, Hexc. reflexivity.
Qed.

(** The older copy in langchain_service.py behaves differently on the
    same failure: it answers with an apology instead of raising. *)
Lemma legacy_analyze_answers_apology
    (self : langchain_service.SalesAnalyzer) (question : str)
    (w : world) (t : trace) (e : exn) (start : datetime) :
  execute_fault w = Some e -> is_Exception e = true ->
  window_start w 7 = Ok start ->
  langchain_service.analyze_sales_question self question w t
  = (Ok langchain_service.APOLOGY,
     t ++ [SessionOpened; Executed (SelectSalesWithProduct start);
           Logged ERROR (lit "Error fetching sales data: ") (Some e); SessionClosed;
           Logged ERROR (lit "Error processing question: ") (Some e)]).
Proof.
  intros Hfault Hexc Hstart.
  unfold langchain_service.analyze_sales_question, try_except, bind.
  rewrite get_recent_sales_data_cases, Hstart, Hfault, Hexc.
  unfold log, emit, ret. cbv beta iota. rewrite Hexc. rewrite <- app_assoc. reflexivity.
Qed.

(** ** Construction and the credential *)

Ltac by_exception_class e :=
  let E1 := fresh "E" in
  let E2 := fresh "E" in
  destruct (is_Exception e) eqn:E1, (is_HTTPException e) eqn:E2;
  cbv beta iota; rewrite ?E1, ?E2; try reflexivity.

Lemma analyze_sales_ignores_environ
    (self : sales_analyzer.SalesAnalyzer) (question : str) (days : Z)
    (env : gmap string str) (w : world) (t : trace) :
  sales_analyzer.analyze_sales self question days (with_environ env w) t
  = sales_analyzer.analyze_sales self question days w t.
Proof.
  unfold sales_analyzer.analyze_sales, try_except, bind.
  rewrite !get_sales_data_cases.
  change (window_start (with_environ env w) days) with (window_start w days).
  change (execute_fault (with_environ env w)) with (execute_fault w).
  destruct (window_start w days) as [start|e].
  2:{ by_exception_class e. }
  destruct (execute_fault w) as [e|].
  { by_exception_class e. }
  change (select_sales_with_product (with_environ env w) start)
    with (select_sales_with_product w start).
  unfold lift.
  destruct (sales_analyzer._format_context (select_sales_with_product w start))
    as [context|e].
  2:{ by_exception_class e. }
  unfold log, emit, arun, bind, emit, ask, lift.
  destruct (PyStr.format _ _) as [text|]; [|reflexivity].
  change (generate (with_environ env w) text) with (generate w text).
  destruct (generate w text) as [response|e]; [reflexivity|].
  by_exception_class e.
Qed.

(** C5. Constructing the analyzer without the provider credential (unset
    or empty) fails during construction with the configuration error,
    after logging it as critical and before any provider client exists;
    the analysis itself never consults the credential, so the check is
    made once, at construction. *)
Theorem C5_missing_credential_fails_at_construction :
  forall (w : world) (t : trace),
    credential_absent w ->
    sales_analyzer.__init__ w t
    = (Raise (RuntimeError (lit "OpenAI API key not configured")),
       t ++ [Logged CRITICAL (lit "OPENAI_API_KEY environment variable not configured") None])
    /\ clients_built (snd (sales_analyzer.__init__ w t)) = clients_built t
    /\ provider_calls (snd (sales_analyzer.__init__ w t)) = provider_calls t
    /\ forall (self : sales_analyzer.SalesAnalyzer) (question : str) (days : Z)
              (env : gmap string str) (t0 : trace),
         sales_analyzer.analyze_sales self question days (with_environ env w) t0
         = sales_analyzer.analyze_sales self question days w t0.
Proof.
  intros w t Habsent. unfold credential_absent in Habsent.
  assert (Hinit : sales_analyzer.__init__ w t
          = (Raise (RuntimeError (lit "OpenAI API key not configured")),
             t ++ [Logged CRITICAL
                     (lit "OPENAI_API_KEY environment variable not configured") None])).
  { unfold sales_analyzer.__init__, sales_analyzer._initialize_llm.
    unfold bind at 1 2. unfold getenv at 1. rewrite Habsent. reflexivity. }
  split; [exact Hinit|]. rewrite Hinit. cbn [snd].
  split; [|split].
  - unfold clients_built. rewrite List.filter_app. apply app_nil_r.
  - rewrite provider_calls_app. apply app_nil_r.
  - intros. apply analyze_sales_ignores_environ.
Qed.

Lemma C5_witness :
  sales_analyzer.__init__ Samples.no_credential []
  = (Raise (RuntimeError (lit "OpenAI API key not configured")),
     [] ++ [Logged CRITICAL (lit "OPENAI_API_KEY environment variable not configured") None]).
Proof.
  apply (C5_missing_credential_fails_at_construction Samples.no_credential []).
  vm_compute. reflexivity.
Defined.

(** Conversely, an analyzer that was constructed holds a non-empty key,
    the one of the environment, and the chain built on the template. *)
Lemma init_ok_inv (w : world) (t t' : trace) (self : sales_analyzer.SalesAnalyzer) :
  sales_analyzer.__init__ w t = (Ok self, t') ->
  environ w !! "OPENAI_API_KEY"%string = Some (openai_api_key (sales_analyzer.self_llm self))
  /\ openai_api_key (sales_analyzer.self_llm self) <> []
  /\ sales_analyzer.self_chain self
     = sales_analyzer._create_analysis_chain (sales_analyzer.self_llm self)
  /\ t' = t ++ [ClientCreated (sales_analyzer.self_llm self)].
Proof.
  unfold sales_analyzer.__init__, sales_analyzer._initialize_llm, ChatOpenAI.
  unfold bind, getenv, log, emit, raise, ret.
  destruct (environ w !! "OPENAI_API_KEY"%string) as [[|c k]|];
    cbv beta iota delta [truthy negb]; try discriminate.
  intros [= <- <-].
  cbv beta iota delta [sales_analyzer.self_llm sales_analyzer.self_chain openai_api_key].
  repeat split. discriminate.
Qed.

(** The older copy leaves the check to the provider client, which refuses
    to be built without a key: construction fails there as well. *)
Lemma legacy_init_without_credential (w : world) (t : trace) :
  credential_absent w ->
  langchain_service.__init__ w t
  = (Raise (CollaboratorError (lit "ValidationError") (lit "Did not find openai_api_key")), t).
Proof.
  unfold credential_absent, langchain_service.__init__, ChatOpenAI.
  unfold bind, getenv, log, emit, raise, ret.
  destruct (environ w !! "OPENAI_API_KEY"%string) as [[|c k]|];
    cbv beta iota delta [truthy negb];
    intros H; try discriminate H; reflexivity.
Qed.

(** ** The prompt and the answer *)

Lemma template_filled (question context : str) :
  PyStr.format sales_analyzer.TEMPLATE
    [(lit "question", question); (lit "context", context)]
  = Some (prompt_for question context).
Proof. vm_compute. reflexivity. Qed.

Lemma prompt_contains_context (question context : str) :
  contains (prompt_for question context) context.
Proof.
  exists (PROMPT_HEAD ++ question ++ PROMPT_MIDDLE), PROMPT_TAIL.
  unfold prompt_for. rewrite <- !app_assoc. reflexivity.
Qed.

Lemma lstrip_spec (s : str) :
  exists l, s = l ++ lstrip s
            /\ Forall (fun c => is_space c = true) l
            /\ (forall c rest, lstrip s = c :: rest -> is_space c = false).
Proof.
  induction s as [|c s (l & Hs & Hl & Hhead)]; cbn [lstrip].
  - exists []. repeat split; [constructor | discriminate].
  - destruct (is_space c) eqn:E.
    + exists (c :: l). split; [cbn; f_equal; exact Hs|].
      split; [constructor; assumption | exact Hhead].
    + exists []. split; [reflexivity|]. split; [constructor|].
      intros c' rest [= <- _]. exact E.
Qed.

Lemma rstrip_spec (s : str) :
  exists r, s = rstrip s ++ r
            /\ Forall (fun c => is_space c = true) r
            /\ (forall c front, rstrip s = front ++ [c] -> is_space c = false).
Proof.
  unfold rstrip. destruct (lstrip_spec (rev s)) as (l & Hs & Hl & Hhead).
  exists (rev l). split; [|split].
  - rewrite <- rev_app_distr, <- Hs, rev_involutive. reflexivity.
  - apply Forall_rev. exact Hl.
  - intros c front E. apply (f_equal (@rev N)) in E.
    rewrite rev_involutive, rev_app_distr in E. cbn in E.
    exact (Hhead _ _ E).
Qed.

(** [strip] removes a run of whitespace at each end and nothing else. *)
Lemma strip_spec (s : str) :
  exists l r,
    s = l ++ strip s ++ r
    /\ Forall (fun c => is_space c = true) l
    /\ Forall (fun c => is_space c = true) r
    /\ (forall c rest, strip s = c :: rest -> is_space c = false)
    /\ (forall c front, strip s = front ++ [c] -> is_space c = false).
Proof.
  unfold strip.
  destruct (lstrip_spec s) as (l & Hs & Hl & Hhead).
  destruct (rstrip_spec (lstrip s)) as (r & Hr & Hrs & Hlast).
  exists l, r. split; [|split; [|split; [|split]]]; try assumption.
  - rewrite <- Hr. exact Hs.
  - intros c rest E. rewrite E in Hr. cbn in Hr. exact (Hhead _ _ Hr).
Qed.

(** C6. On success, [analyze_sales] of a constructed analyzer returns the
    provider's text with the whitespace at both ends removed as [answer],
    and as [context_used] the formatted context of the fetched rows, which
    is the very string that stands in the prompt the provider received. *)
Theorem C6_answer_trimmed_and_context_returned :
  forall (w0 : world) (t0 t1 : trace) (self : sales_analyzer.SalesAnalyzer)
         (question : str) (days : Z) (w : world) (t t' : trace)
         (r : sales_analyzer.Insight),
    sales_analyzer.__init__ w0 t0 = (Ok self, t1) ->
    sales_analyzer.analyze_sales self question days w t = (Ok r, t') ->
    exists rows t_fetch prompt response,
      sales_analyzer._get_sales_data days w t = (Ok rows, t_fetch)
      /\ sales_analyzer._format_context rows = Ok (sales_analyzer.context_used r)
      /\ prompt = prompt_for question (sales_analyzer.context_used r)
      /\ contains prompt (sales_analyzer.context_used r)
      /\ last t' = Some (Generated (sales_analyzer.self_llm self) prompt)
      /\ provider_calls t' = provider_calls t ++ [Generated (sales_analyzer.self_llm self) prompt]
      /\ generate w prompt = Ok response
      /\ sales_analyzer.answer r = strip response
      /\ exists lead trail,
           response = lead ++ sales_analyzer.answer r ++ trail
           /\ Forall (fun c => is_space c = true) lead
           /\ Forall (fun c => is_space c = true) trail
           /\ (forall c rest, sales_analyzer.answer r = c :: rest -> is_space c = false)
           /\ (forall c front, sales_analyzer.answer r = front ++ [c] -> is_space c = false).
Proof.
  intros w0 t0 t1 self question days w t t' r Hinit Hrun.
  apply init_ok_inv in Hinit as (_ & _ & Hchain & _).
  pose proof (get_sales_data_no_provider_call days w t) as Hquiet.
  unfold sales_analyzer.analyze_sales, try_except, bind in Hrun.
  destruct (sales_analyzer._get_sales_data days w t) as [[rows|e] t_fetch] eqn:Hfetch.
  2:{ by_exception_class e; cbv beta iota in Hrun; rewrite ?E, ?E0 in Hrun;
      unfold log, emit, raise in Hrun; discriminate Hrun. }
  cbn [snd] in Hquiet.
  unfold lift in Hrun.
  destruct (sales_analyzer._format_context rows) as [context|e] eqn:Hctx.
  2:{ by_exception_class e; cbv beta iota in Hrun; rewrite ?E, ?E0 in Hrun;
      unfold log, emit, raise in Hrun; discriminate Hrun. }
  unfold log, emit, arun, bind, emit, ask, lift in Hrun.
  rewrite Hchain in Hrun. cbn [sales_analyzer._create_analysis_chain prompt template llm] in Hrun.
  rewrite template_filled in Hrun.
  destruct (generate w (prompt_for question context)) as [response|e] eqn:Hgen.
  2:{ by_exception_class e; cbv beta iota in Hrun; rewrite ?E, ?E0 in Hrun;
      unfold raise in Hrun; discriminate Hrun. }
  unfold ret in Hrun. injection Hrun as <- <-. cbn [sales_analyzer.answer sales_analyzer.context_used].
  exists rows, t_fetch, (prompt_for question context), response.
  split; [reflexivity|]. split; [exact Hctx|]. split; [reflexivity|].
  split; [apply prompt_contains_context|].
  split; [apply last_snoc|].
  split.
  { rewrite !provider_calls_app, Hquiet. unfold provider_calls.
    cbn [List.filter is_Generated]. rewrite app_nil_r. reflexivity. }
  split; [exact Hgen|]. split; [reflexivity|].
  destruct (strip_spec response) as (l & tr & H1 & H2 & H3 & H4 & H5).
  exists l, tr. auto.
Qed.


Lemma C6_witness :
  exists r t' response,
    sales_analyzer.analyze_sales Samples.analyzer (lit "What sold best?") 7
      Samples.healthy [] = (Ok r, t')
    /\ generate Samples.healthy
         (prompt_for (lit "What sold best?") (sales_analyzer.context_used r))
       = Ok response
    /\ sales_analyzer.answer r = strip response.
Proof.
  assert (Hinit : sales_analyzer.__init__ Samples.healthy []
                  = (Ok Samples.analyzer,
                     [ClientCreated (sales_analyzer.self_llm Samples.analyzer)]))
    by (vm_compute; reflexivity).
  destruct (sales_analyzer.analyze_sales Samples.analyzer (lit "What sold best?") 7
              Samples.healthy []) as [[r|e] t'] eqn:Hrun.
  - destruct (C6_answer_trimmed_and_context_returned _ _ _ _ _ _ _ _ _ _ Hinit Hrun)
      as (rows & tf & prompt & response & _ & _ & -> & _ & _ & _ & Hgen & Hans & _).
    exists r, t', response. auto.
  - exfalso. vm_compute in Hrun. discriminate Hrun.
Defined.

(** Scenario A of the specification: no sale in the window; the context is
    the sentinel, the prompt carries it, and the answer is the provider's
    text, trimmed. *)
Example scenario_A_no_sales :
  let w := mkWorld (environ Samples.healthy) Samples.noon [Samples.widget]
             [Samples.sale_old] None Samples.provider in
  let run := sales_analyzer.analyze_sales Samples.analyzer (lit "What sold best?") 7 w [] in
  fst run = Ok (sales_analyzer.mkInsight (lit "Widget foi o mais vendido.")
                  sales_analyzer.NO_SALES)
  /\ last (snd run)
     = Some (Generated (sales_analyzer.self_llm Samples.analyzer)
               (prompt_for (lit "What sold best?") sales_analyzer.NO_SALES)).
Proof. split; vm_compute; reflexivity. Qed.

(** ** The model validators *)

Lemma validate_quantity_ok (q q' : Z) :
  validate_quantity q = Ok q' -> q' = q /\ 0 < q.
Proof.
  unfold validate_quantity. destruct (Z.leb_spec q 0); [discriminate|].
  intros [= <-]. split; [reflexivity | lia].
Qed.

Lemma validate_prices_ok (p p' : Decimal) :
  validate_prices p = Ok p' ->
  gt_zero p = true /\ p' = rescale (-2) p /\ dexp p' = -2 /\ dsign p' = false.
Proof.
  unfold validate_prices, le_zero, gt_zero, PyDecimal.round, quantize.
  destruct (dsign p) eqn:Hs; cbn [orb negb andb]; [discriminate|].
  destruct (N.eqb_spec (dcoef p) 0) as [Hz|Hnz]; [discriminate|].
  change (- (2)) with (-2).
  destruct (Emax <? adjusted p); [discriminate|].
  destruct (prec <? adjusted p - -2 + 1); [discriminate|].
  destruct (Emax <? adjusted (rescale (-2) p)); [discriminate|].
  destruct (prec <? ndigits (dcoef (rescale (-2) p))); [discriminate|].
  intros [= <-]. rewrite rescale_exp, rescale_sign, Hs.
  repeat split. apply N.ltb_lt. lia.
Qed.

Lemma skip_class_spec (s : str) :
  exists run, s = run ++ skip_class s /\ Forall (fun c => sku_class c = true) run.
Proof.
  induction s as [|c s (run & Hs & Hrun)]; cbn [skip_class].
  - exists []. split; [reflexivity | constructor].
  - destruct (sku_class c) eqn:E.
    + exists (c :: run). split; [cbn; f_equal; exact Hs | constructor; assumption].
    + exists []. split; [reflexivity | constructor].
Qed.

(** What [validate_sku] accepts: a well-formed SKU, or a well-formed SKU
    followed by one newline. *)
Lemma validate_sku_ok (s s' : str) :
  validate_sku s = Ok s' ->
  s' = s /\ (sku_well_formed s \/ exists body, s = body ++ [NL] /\ sku_well_formed body).
Proof.
  unfold validate_sku, re_match_sku.
  destruct s as [|c s0]; [discriminate|].
  destruct (sku_class c) eqn:Hc; [|discriminate].
  cbn [andb]. destruct (skip_class_spec (c :: s0)) as (run & Hs & Hrun).
  assert (Hne : run <> []).
  { intros ->. cbn [app] in Hs. cbn [skip_class] in Hs. rewrite Hc in Hs.
    apply (f_equal (@length N)) in Hs. cbn in Hs.
    destruct (skip_class_spec s0) as (run0 & H0 & _).
    apply (f_equal (@length N)) in H0. rewrite length_app in H0. lia. }
  destruct (skip_class (c :: s0)) as [|d [|d' rest]] eqn:Hskip; cbn [at_dollar negb].
  - intros [= <-]. split; [reflexivity|]. left.
    rewrite app_nil_r in Hs. rewrite Hs. split; assumption.
  - destruct (N.eqb_spec d NL) as [->|]; cbn [negb]; [|discriminate].
    intros [= <-]. split; [reflexivity|]. right. exists run. split; [exact Hs|].
    split; assumption.
  - discriminate.
Qed.

Lemma validate_sku_complete (s : str) :
  sku_well_formed s -> validate_sku s = Ok s.
Proof.
  intros [Hne Hall]. unfold validate_sku, re_match_sku.
  destruct s as [|c s0]; [contradiction|].
  assert (Hskip : forall l, Forall (fun c => sku_class c = true) l -> skip_class l = []).
  { induction 1 as [|x l Hx _ IH]; cbn [skip_class]; [reflexivity|].
    rewrite Hx. exact IH. }
  rewrite (Hskip _ Hall). apply Forall_cons in Hall as [-> _]. reflexivity.
Qed.

(** C8. The validators let through records that break the invariant: a
    SKU that ends in a newline passes [validate_sku], and a positive price
    below half a hundredth passes [validate_prices] and is stored as zero.
    Quantities are checked as stated. *)
Theorem C8_validators_admit_ill_formed_records :
  (exists p,
      Product_init 1 (lit "AB-1" ++ [NL]) (lit "Widget") None None (Samples.money 1000) 5
      = Ok p
      /\ sku p = lit "AB-1" ++ [NL]
      /\ ~ sku_well_formed (sku p))
  /\ (exists s,
         Sale_init 1 1 None 1 (mkDecimal false 4 (-3)) (mkDecimal false 5 (-3))
           Samples.noon None
         = Ok s
         /\ unit_price s = mkDecimal false 0 (-2)
         /\ total_amount s = mkDecimal false 0 (-2)
         /\ gt_zero (unit_price s) = false
         /\ gt_zero (total_amount s) = false).
Proof.
  split.
  - eexists. split; [vm_compute; reflexivity|]. split; [reflexivity|].
    intros [_ Hall]. cbn [sku] in Hall.
    rewrite Forall_forall in Hall.
    assert (Hnl : sku_class NL = true).
    { apply Hall. vm_compute. repeat constructor. }
    vm_compute in Hnl. discriminate Hnl.
  - eexists. split; [vm_compute; reflexivity|]. repeat split.
Qed.

(** ** The request handlers of main.py *)

Lemma queries_app (t1 t2 : trace) : queries (t1 ++ t2) = queries t1 ++ queries t2.
Proof. apply List.filter_app. Qed.

Lemma legacy_init_cases (w : world) (t : trace) :
  langchain_service.__init__ w t =
  match environ w !! "OPENAI_API_KEY"%string with
  | Some (c :: k) =>
      let llm := mkChatOpenAI 0 (lit "gpt-3.5-turbo") (c :: k) in
      let prompt_template :=
        mkPromptTemplate [lit "question"; lit "context"] langchain_service.TEMPLATE in
      (Ok (langchain_service.mkSalesAnalyzer llm prompt_template
             (mkLLMChain llm prompt_template)),
       t ++ [ClientCreated llm])
  | _ =>
      (Raise (CollaboratorError (lit "ValidationError") (lit "Did not find openai_api_key")), t)
  end.
Proof.
  unfold langchain_service.__init__, ChatOpenAI.
  unfold bind, getenv, log, emit, raise, ret.
  destruct (environ w !! "OPENAI_API_KEY"%string) as [[|c k]|];
    cbv beta iota delta [truthy negb]; reflexivity.
Qed.

Lemma call_with_two_arguments
    (self : langchain_service.SalesAnalyzer) (a b : langchain_service.pyval)
    (w : world) (t : trace) :
  langchain_service.call_analyze_sales_question self [a; b] w t
  = (Raise (TypeError TOO_MANY_ARGUMENTS), t).
Proof.
  assert (Hmsg : lit "SalesAnalyzer.analyze_sales_question() takes "
                 ++ int_str (Z.of_nat 2) ++ lit " positional arguments but "
                 ++ int_str (Z.of_nat 3) ++ lit " were given"
                 = TOO_MANY_ARGUMENTS) by (vm_compute; reflexivity).
  unfold langchain_service.call_analyze_sales_question, raise.
  cbn [length langchain_service.analyze_sales_question_params Nat.ltb Nat.leb].
  rewrite Hmsg. reflexivity.
Qed.

(** C9. The question-answering handler never answers: it passes two
    arguments to a method that takes one, the resulting [TypeError] (or,
    without a credential, the failure to build the analyzer) is caught by
    the handler, logged, and replaced by the generic server error; neither
    the storage engine nor the provider is ever reached. *)
Theorem C9_sales_insights_always_fails :
  forall (question : str) (days : Z) (w : world) (t : trace),
  exists t',
    main.sales_insights question days w t
    = (Raise (HTTPException 500 (lit "Error processing your question")), t')
    /\ provider_calls t' = provider_calls t
    /\ queries t' = queries t
    /\ (forall self t1,
          langchain_service.__init__ w t = (Ok self, t1) ->
          t' = t1 ++ [Logged ERROR (lit "Error in sales_insights: ")
                        (Some (TypeError TOO_MANY_ARGUMENTS))])
    /\ (forall self w1 t1,
          langchain_service.call_analyze_sales_question self
            [langchain_service.VStr question; langchain_service.VInt days] w1 t1
          = (Raise (TypeError TOO_MANY_ARGUMENTS), t1)).
Proof.
  intros question days w t.
  assert (Hcall : forall self w1 t1,
             langchain_service.call_analyze_sales_question self
               [langchain_service.VStr question; langchain_service.VInt days] w1 t1
             = (Raise (TypeError TOO_MANY_ARGUMENTS), t1))
    by (intros; apply call_with_two_arguments).
  cut (exists t',
    main.sales_insights question days w t
    = (Raise (HTTPException 500 (lit "Error processing your question")), t')
    /\ provider_calls t' = provider_calls t
    /\ queries t' = queries t
    /\ (forall self t1,
          langchain_service.__init__ w t = (Ok self, t1) ->
          t' = t1 ++ [Logged ERROR (lit "Error in sales_insights: ")
                        (Some (TypeError TOO_MANY_ARGUMENTS))])).
  { intros (t' & H1 & H2 & H3 & H4). exists t'. auto 6. }
  clear Hcall.
  unfold main.sales_insights, try_except, bind.
  rewrite legacy_init_cases.
  destruct (environ w !! "OPENAI_API_KEY"%string) as [[|c k]|];
    cbv beta iota zeta; rewrite ?call_with_two_arguments;
    cbv beta iota delta [is_Exception log emit raise bind];
    eexists; (split; [reflexivity|]);
    (split; [rewrite ?provider_calls_app; unfold provider_calls;
             cbn [List.filter is_Generated]; rewrite ?app_nil_r; reflexivity |]);
    (split; [rewrite ?queries_app; unfold queries;
             cbn [List.filter is_Executed]; rewrite ?app_nil_r; reflexivity |]);
    intros self t1 [= <- <-]; rewrite <- ?app_assoc; reflexivity.
Qed.

(** C10. The session dependency of main.py fails at its first step: the
    name [async_session] is bound nowhere in the module, reading it raises
    [NameError], and so no session is opened and the top-products route
    never reaches its query.  The session factory is bound as
    [SessionLocal]. *)
Theorem C10_get_db_raises_name_error :
  forall (F : Type) (round_float2 : Decimal -> F) (days limit : Z)
         (A : Type) (use : AsyncSession -> M A) (w : world) (t : trace),
    main.get_db use w t = (Raise (NameError ASYNC_SESSION_UNDEFINED), t)
    /\ main.top_products_route F round_float2 days limit w t
       = (Raise (NameError ASYNC_SESSION_UNDEFINED), t)
    /\ main.module_globals !! "async_session"%string = None
    /\ main.module_globals !! "SessionLocal"%string = Some main.GSessionMaker.
Proof.
  intros F rf days limit A use w t.
  assert (Hnone : main.module_globals !! "async_session"%string = None)
    by (vm_compute; reflexivity).
  assert (Hmsg : lit "name '" ++ lit "async_session" ++ lit "' is not defined"
                 = ASYNC_SESSION_UNDEFINED) by (vm_compute; reflexivity).
  assert (Hget : forall B (u : AsyncSession -> M B),
             main.get_db u w t = (Raise (NameError ASYNC_SESSION_UNDEFINED), t)).
  { intros B u. unfold main.get_db, bind, main.load_global.
    rewrite Hnone. unfold raise. rewrite Hmsg. reflexivity. }
  split; [apply Hget|]. split; [apply Hget|]. split; [exact Hnone|].
  vm_compute. reflexivity.
Qed.

(** The dependency of database.py, which names the factory correctly,
    does serve the same handler. *)
Example database_get_db_serves_top_products :
  fst (database.get_db
         (fun db => main.top_products Decimal (rescale (-2)) 30 1 db)
         Samples.healthy [])
  = Ok [main.mkTopProductResponse Decimal (lit "Widget") 10 (Samples.money 10000)].
Proof. vm_compute. reflexivity. Qed.

(* ===================================================================== *)
(** * Further properties of the package                                   *)
(* ===================================================================== *)

(** ** How the analyzers fail *)

Lemma format_context_total (rows : list (Sale * Product)) :
  exists context, sales_analyzer._format_context rows = Ok context.
Proof.
  unfold sales_analyzer._format_context. destruct rows as [|row rows'].
  - eexists. reflexivity.
  - destruct (format_lines_total (row :: rows')) as (ls & -> & _).
    eexists. reflexivity.
Qed.

Lemma window_start_error_is_exception (w : world) (days : Z) (e : exn) :
  window_start w days = Raise e -> is_Exception e = true.
Proof.
  unfold window_start, timedelta, PyDatetime.sub.
  destruct (999999999 <? Z.abs days); cbn [rbind].
  - intros [= <-]. reflexivity.
  - destruct ((0 <? toordinal (clock w) - days) && (toordinal (clock w) - days <=? MAXORDINAL)).
    + destruct (ord2ymd _) as [[y m] d]. discriminate.
    + intros [= <-]. reflexivity.
Qed.

Ltac not_outside_Exception :=
  let H := fresh in intros H; cbn [is_Exception] in H; discriminate H.

(** X1. Whatever [analyze_sales] raises is either an [HTTPException], or an
    error outside [Exception] that the engine or the provider raised and
    that passes through unchanged.  The classified errors it makes itself
    carry status 500 and one of two details. *)
Theorem analyze_sales_raises_classified :
  forall (self : sales_analyzer.SalesAnalyzer) (question : str) (days : Z)
         (w : world) (t t' : trace) (e : exn),
    sales_analyzer.analyze_sales self question days w t = (Raise e, t') ->
    (is_Exception e = true ->
       e = HTTPException 500 FETCH_FAILED
       \/ e = HTTPException 500 INSIGHT_FAILED
       \/ exists prompt, generate w prompt = Raise e /\ is_HTTPException e = true)
    /\ (is_Exception e = false ->
          execute_fault w = Some e \/ exists prompt, generate w prompt = Raise e).
Proof.
  intros self question days w t t' e Hrun.
  unfold FETCH_FAILED, INSIGHT_FAILED.
  unfold sales_analyzer.analyze_sales, try_except, bind in Hrun.
  rewrite get_sales_data_cases in Hrun.
  destruct (window_start w days) as [start|e0] eqn:Hstart.
  2:{ rewrite (window_start_error_is_exception _ _ _ Hstart) in Hrun.
      cbn [is_HTTPException] in Hrun. unfold raise in Hrun.
      injection Hrun as <- _.
      split; [intros _; left; reflexivity | not_outside_Exception]. }
  destruct (execute_fault w) as [e0|] eqn:Hfault.
  { destruct (is_Exception e0) eqn:E0.
    - cbn [is_HTTPException] in Hrun. unfold raise in Hrun.
      injection Hrun as <- _.
      split; [intros _; left; reflexivity | not_outside_Exception].
    - destruct (is_HTTPException e0) eqn:E1; [destruct e0; discriminate|].
      rewrite E0 in Hrun. injection Hrun as <- _.
      split; [rewrite E0; discriminate | auto]. }
  unfold lift in Hrun.
  destruct (format_context_total (select_sales_with_product w start)) as [context Hctx].
  rewrite Hctx in Hrun.
  unfold log, emit, arun, bind, emit, ask, lift in Hrun.
  destruct (PyStr.format _ _) as [text|].
  2:{ cbn [is_HTTPException is_Exception] in Hrun. unfold raise in Hrun.
      injection Hrun as <- _.
      split; [intros _; right; left; reflexivity | not_outside_Exception]. }
  destruct (generate w text) as [response|e0] eqn:Hgen; [discriminate Hrun|].
  destruct (is_HTTPException e0) eqn:E1.
  { unfold raise in Hrun. injection Hrun as <- _.
    split; [intros _; right; right; eauto | destruct e0; discriminate]. }
  destruct (is_Exception e0) eqn:E0.
  - unfold raise in Hrun. injection Hrun as <- _.
    split; [intros _; right; left; reflexivity | not_outside_Exception].
  - injection Hrun as <- _. split; [rewrite E0; discriminate | eauto].
Qed.

Lemma analyze_sales_raises_classified_witness :
  exists e t',
    sales_analyzer.analyze_sales Samples.analyzer (lit "What sold best?") 7
      Samples.storage_down [] = (Raise e, t')
    /\ (e = HTTPException 500 FETCH_FAILED
        \/ e = HTTPException 500 INSIGHT_FAILED
        \/ exists prompt, generate Samples.storage_down prompt = Raise e
                          /\ is_HTTPException e = true).
Proof.
  pose (r := sales_analyzer.analyze_sales Samples.analyzer (lit "What sold best?") 7
               Samples.storage_down []).
  assert (H : r = (Raise (HTTPException 500
                            (lit "Erro ao acessar dados históricos de vendas")), snd r))
    by (vm_compute; reflexivity).
  destruct (analyze_sales_raises_classified _ _ _ _ _ _ _ H) as [Hc _].
  eexists. exists (snd r). split; [exact H|]. apply Hc. reflexivity.
Defined.

Lemma legacy_format_context_total (rows : list (Sale * Product)) :
  exists context, langchain_service._format_sales_context rows = Ok context.
Proof.
  destruct rows as [|row rows'].
  - eexists. reflexivity.
  - rewrite legacy_format_matches by discriminate. apply format_context_total.
Qed.

(** X2. The older analyzer never raises an [Exception]: a failure of the
    fetch, of the template or of the provider is logged and answered with
    the apology, as if it were an insight; only an error outside
    [Exception] gets through.  An answer other than the apology is the
    provider's text, trimmed. *)
Theorem legacy_analyze_swallows_exceptions :
  forall (self : langchain_service.SalesAnalyzer) (question : str)
         (w : world) (t : trace),
    match fst (langchain_service.analyze_sales_question self question w t) with
    | Raise e =>
        is_Exception e = false
        /\ (execute_fault w = Some e \/ exists prompt, generate w prompt = Raise e)
    | Ok s =>
        s = langchain_service.APOLOGY
        \/ exists prompt response, generate w prompt = Ok response /\ s = strip response
    end.
Proof.
  intros self question w t.
  unfold langchain_service.analyze_sales_question, try_except, bind.
  rewrite get_recent_sales_data_cases.
  destruct (window_start w 7) as [start|e0] eqn:Hstart.
  2:{ rewrite (window_start_error_is_exception _ _ _ Hstart).
      cbv beta iota. rewrite (window_start_error_is_exception _ _ _ Hstart).
      unfold log, emit, ret, bind. cbn [fst]. left. reflexivity. }
  destruct (execute_fault w) as [e0|] eqn:Hfault.
  { destruct (is_Exception e0) eqn:E0; cbv beta iota; rewrite ?E0.
    - unfold log, emit, ret, bind. cbn [fst]. left. reflexivity.
    - cbn [fst]. auto. }
  unfold lift.
  destruct (legacy_format_context_total (select_sales_with_product w start))
    as [context Hctx].
  rewrite Hctx. unfold log, emit, arun, bind, emit, ask, lift.
  destruct (PyStr.format _ _) as [text|].
  2:{ cbn [is_Exception]. unfold raise, ret. cbn [fst]. left. reflexivity. }
  destruct (generate w text) as [response|e0] eqn:Hgen.
  { unfold ret. cbn [fst]. right. eauto. }
  destruct (is_Exception e0) eqn:E0; cbv beta iota.
  - unfold ret. cbn [fst]. left. reflexivity.
  - cbn [fst]. eauto.
Qed.

(** ** Sessions *)

(** X3. Both accessors open one session and close it on every path, whatever
    the outcome; in between they send at most one statement and touch the
    session no further. *)
Theorem accessors_release_their_session :
  forall (days : Z) (w : world) (t : trace),
    (exists mid,
        snd (sales_analyzer._get_sales_data days w t)
        = t ++ SessionOpened :: mid ++ [SessionClosed]
        /\ Forall (fun ev => is_session_event ev = false) mid
        /\ (length (queries mid) <= 1)%nat
        /\ provider_calls mid = [])
    /\ (exists mid,
           snd (langchain_service._get_recent_sales_data days w t)
           = t ++ SessionOpened :: mid ++ [SessionClosed]
           /\ Forall (fun ev => is_session_event ev = false) mid
           /\ (length (queries mid) <= 1)%nat
           /\ provider_calls mid = []).
Proof.
  intros days w t. rewrite get_sales_data_cases, get_recent_sales_data_cases.
  destruct (window_start w days) as [start|e0];
    [destruct (execute_fault w) as [e0|]; [destruct (is_Exception e0)|]
    | destruct (is_Exception e0)];
    cbn [snd]; split;
    match goal with
    | |- exists mid, _ ++ [SessionOpened; ?a; ?b; SessionClosed] = _ /\ _ =>
        exists [a; b]
    | |- exists mid, _ ++ [SessionOpened; ?a; SessionClosed] = _ /\ _ =>
        exists [a]
    | |- exists mid, _ ++ [SessionOpened; SessionClosed] = _ /\ _ =>
        exists []
    end;
    (split; [reflexivity|];
     split; [repeat constructor|];
     split; [unfold queries; cbn [List.filter is_Executed length]; lia
            | reflexivity]).
Qed.

(** X4. [get_db] of database.py hands the outcome of the session's user on
    unchanged, rolls back exactly when that outcome is an [Exception], and
    closes the session on every path. *)
Theorem database_get_db_lifecycle :
  forall (A : Type) (use : AsyncSession -> M A) (w : world) (t : trace),
    database.get_db use w t
    = (fst (use Session w (t ++ [SessionOpened])),
       snd (use Session w (t ++ [SessionOpened]))
       ++ rollback_for (fst (use Session w (t ++ [SessionOpened])))
       ++ [SessionClosed; SessionClosed]).
Proof.
  intros A use w t.
  unfold database.get_db, SessionLocal, try_finally, try_except, bind, emit, raise.
  destruct (use Session w (t ++ [SessionOpened])) as [[a|e] t1]; cbn [fst snd rollback_for].
  - rewrite <- app_assoc. reflexivity.
  - destruct (is_Exception e); rewrite <- !app_assoc; reflexivity.
Qed.

(** ** Day counts without a window *)

Lemma window_start_out_of_range (w : world) (days : Z) :
  window_out_of_range w days ->
  exists msg, window_start w days = Raise (OverflowError msg).
Proof.
  unfold window_out_of_range, window_start, timedelta, PyDatetime.sub.
  intros H. destruct (Z.ltb_spec 999999999 (Z.abs days)); cbn [rbind].
  - eexists. reflexivity.
  - destruct (Z.ltb_spec 0 (toordinal (clock w) - days));
      destruct (Z.leb_spec (toordinal (clock w) - days) MAXORDINAL);
      cbn [andb]; try (eexists; reflexivity).
    lia.
Qed.

Lemma window_start_in_range (w : world) (days : Z) :
  ~ window_out_of_range w days -> exists start, window_start w days = Ok start.
Proof.
  unfold window_out_of_range, window_start, timedelta, PyDatetime.sub.
  intros H. destruct (Z.ltb_spec 999999999 (Z.abs days)); [lia|]. cbn [rbind].
  destruct (Z.ltb_spec 0 (toordinal (clock w) - days)); [|lia].
  destruct (Z.leb_spec (toordinal (clock w) - days) MAXORDINAL); [|lia].
  cbn [andb]. destruct (ord2ymd _) as [[y m] d]. eexists. reflexivity.
Qed.

(** X5. A day count whose window start does not exist (more than 999999999
    days, or a start before year 1 or after year 9999) is answered with
    the classified error of each path, and no statement reaches the
    engine. *)
Theorem out_of_range_days_fail_before_the_query :
  forall (F : Type) (round_float2 : Decimal -> F) (days limit : Z)
         (db : AsyncSession) (w : world) (t : trace),
    window_out_of_range w days ->
    fst (sales_analyzer._get_sales_data days w t) = Raise (HTTPException 500 FETCH_FAILED)
    /\ queries (snd (sales_analyzer._get_sales_data days w t)) = queries t
    /\ fst (main.top_products F round_float2 days limit db w t)
       = Raise (HTTPException 500 (lit "Error fetching top products"))
    /\ queries (snd (main.top_products F round_float2 days limit db w t)) = queries t.
Proof.
  intros F rf days limit db w t Hout.
  destruct (window_start_out_of_range w days Hout) as [msg Hstart].
  rewrite get_sales_data_cases, top_products_cases, Hstart.
  cbn [is_Exception fst snd]. unfold FETCH_FAILED.
  split; [reflexivity|]. split; [|split; [reflexivity|]].
  - rewrite queries_app. unfold queries at 2.
    cbn [List.filter is_Executed]. apply app_nil_r.
  - rewrite queries_app. unfold queries at 2.
    cbn [List.filter is_Executed]. apply app_nil_r.
Qed.

Lemma out_of_range_days_witness :
  fst (sales_analyzer._get_sales_data 1000000000 Samples.healthy [])
  = Raise (HTTPException 500 FETCH_FAILED).
Proof.
  assert (Hout : window_out_of_range Samples.healthy 1000000000)
    by (left; vm_compute; reflexivity).
  exact (proj1 (out_of_range_days_fail_before_the_query Decimal (rescale (-2))
                  1000000000 5 Session Samples.healthy [] Hout)).
Defined.

(** ** The successful analysis, step by step *)

Lemma arun_fills_template (llm : ChatOpenAI_t) (question context : str)
    (w : world) (t : trace) :
  arun (sales_analyzer._create_analysis_chain llm)
    [(lit "question", question); (lit "context", context)] w t
  = (generate w (prompt_for question context),
     t ++ [Generated llm (prompt_for question context)]).
Proof.
  unfold arun.
  cbn [sales_analyzer._create_analysis_chain langchain.prompt langchain.template
         langchain.llm].
  rewrite template_filled. unfold bind, emit, ask, lift. reflexivity.
Qed.

Lemma legacy_template_filled (question context : str) :
  PyStr.format langchain_service.TEMPLATE
    [(lit "question", question); (lit "context", context)]
  = Some (legacy_prompt_for question context).
Proof. vm_compute. reflexivity. Qed.

(** X6. Whatever the question and the context are, braces included, the
    provider is asked exactly once, with the template in which both were
    inserted as they are; filling the template never fails.  This holds
    for the chain of either analyzer. *)
Theorem prompt_carries_question_and_context_verbatim :
  forall (llm : ChatOpenAI_t) (question context : str) (w : world) (t : trace),
    arun (sales_analyzer._create_analysis_chain llm)
      [(lit "question", question); (lit "context", context)] w t
    = (generate w (prompt_for question context),
       t ++ [Generated llm (prompt_for question context)])
    /\ arun (mkLLMChain llm
               (mkPromptTemplate [lit "question"; lit "context"]
                  langchain_service.TEMPLATE))
         [(lit "question", question); (lit "context", context)] w t
       = (generate w (legacy_prompt_for question context),
          t ++ [Generated llm (legacy_prompt_for question context)])
    /\ contains (prompt_for question context) question
    /\ contains (legacy_prompt_for question context) question.
Proof.
  intros llm question context w t.
  split; [apply arun_fills_template|]. split.
  - unfold arun. cbn [langchain.prompt langchain.template langchain.llm].
    rewrite legacy_template_filled. unfold bind, emit, ask, lift. reflexivity.
  - split.
    + exists PROMPT_HEAD, (PROMPT_MIDDLE ++ context ++ PROMPT_TAIL). reflexivity.
    + exists PROMPT_HEAD, (LEGACY_MIDDLE ++ context ++ PROMPT_TAIL). reflexivity.
Qed.

(** X7. When the engine answers and the provider answers, [analyze_sales]
    returns the trimmed answer with the context, after one statement and
    one provider call; the session is closed before the provider is
    asked. *)
Theorem analyze_sales_success_path :
  forall (llm : ChatOpenAI_t) (question : str) (days : Z) (w : world) (t : trace)
         (start : datetime) (context response : str),
    execute_fault w = None ->
    window_start w days = Ok start ->
    sales_analyzer._format_context (select_sales_with_product w start) = Ok context ->
    generate w (prompt_for question context) = Ok response ->
    sales_analyzer.analyze_sales
      (sales_analyzer.mkSalesAnalyzer llm (sales_analyzer._create_analysis_chain llm))
      question days w t
    = (Ok (sales_analyzer.mkInsight (strip response) context),
       t ++ [SessionOpened; Executed (SelectSalesWithProduct start); SessionClosed;
             analyzing question (select_sales_with_product w start);
             Generated llm (prompt_for question context)]).
Proof.
  intros llm question days w t start context response Hok Hstart Hctx Hgen.
  unfold sales_analyzer.analyze_sales, try_except.
  unfold bind at 1 2 3 4.
  rewrite get_sales_data_cases, Hstart, Hok.
  unfold lift at 1. rewrite Hctx.
  unfold log, emit.
  cbn [sales_analyzer.self_chain].
  rewrite arun_fills_template, Hgen. unfold ret, analyzing.
  rewrite <- !app_assoc. reflexivity.
Qed.

Lemma analyze_sales_success_path_witness :
  exists start context t',
    sales_analyzer.analyze_sales Samples.analyzer (lit "What sold best?") 7
      Samples.healthy []
    = (Ok (sales_analyzer.mkInsight
             (strip (lit "  Widget foi o mais vendido. " ++ [NL])) context), t')
    /\ window_start Samples.healthy 7 = Ok start.
Proof.
  destruct (window_start_ok Samples.healthy 7 noon_valid
              ltac:(vm_compute; intro; discriminate) ltac:(lia)) as [start Hstart].
  destruct (format_context_total (select_sales_with_product Samples.healthy start))
    as [context Hctx].
  exists start, context. eexists. split; [|exact Hstart].
  exact (analyze_sales_success_path
           (mkChatOpenAI 0 (lit "gpt-3.5-turbo") (lit "sk-test"))
           (lit "What sold best?") 7 Samples.healthy [] start context
           (lit "  Widget foi o mais vendido. " ++ [NL])
           eq_refl Hstart Hctx eq_refl).
Defined.

(** ** The top-products handler when the engine fails *)

(** X8. A failing engine never shows as an empty ranking: the handler raises
    the classified server error, after sending at most the one statement,
    and a failure outside [Exception] passes through unchanged. *)
Theorem top_products_failure_is_an_error :
  forall (F : Type) (round_float2 : Decimal -> F) (days limit : Z)
         (db : AsyncSession) (w : world) (t : trace) (e : exn),
    execute_fault w = Some e ->
    (forall res t', main.top_products F round_float2 days limit db w t <> (Ok res, t'))
    /\ (is_Exception e = true ->
        fst (main.top_products F round_float2 days limit db w t)
        = Raise (HTTPException 500 (lit "Error fetching top products")))
    /\ (is_Exception e = false ->
        forall start, window_start w days = Ok start ->
        main.top_products F round_float2 days limit db w t
        = (Raise e, t ++ [Executed (SelectTopProducts start limit)])).
Proof.
  intros F rf days limit db w t e Hfault.
  rewrite top_products_cases, Hfault.
  destruct (window_start w days) as [start|e0] eqn:Hstart.
  - split; [|split].
    + intros res t'. destruct (is_Exception e); discriminate.
    + intros ->. reflexivity.
    + intros -> start' [= <-]. reflexivity.
  - rewrite (window_start_error_is_exception _ _ _ Hstart).
    split; [|split].
    + intros res t'. discriminate.
    + intros _. reflexivity.
    + intros _ start' H. discriminate H.
Qed.

Lemma top_products_failure_witness :
  fst (main.top_products Decimal (rescale (-2)) 30 5 Session Samples.storage_down [])
  = Raise (HTTPException 500 (lit "Error fetching top products")).
Proof.
  exact (proj1 (proj2 (top_products_failure_is_an_error Decimal (rescale (-2)) 30 5
                         Session Samples.storage_down [] _ eq_refl)) eq_refl).
Defined.

(** ** Constructing the analyzer with a credential *)

(** X9. With a non-empty key in the environment the constructor succeeds: it
    builds one client, with temperature 0, the model gpt-3.5-turbo and
    that key, and the chain over the template; nothing is logged and the
    provider is not asked. *)
Theorem analyzer_constructed_with_credential :
  forall (w : world) (t : trace) (key : str),
    environ w !! "OPENAI_API_KEY"%string = Some key -> key <> [] ->
    let llm := mkChatOpenAI 0 (lit "gpt-3.5-turbo") key in
    sales_analyzer.__init__ w t
    = (Ok (sales_analyzer.mkSalesAnalyzer llm (sales_analyzer._create_analysis_chain llm)),
       t ++ [ClientCreated llm])
    /\ langchain_service.__init__ w t
       = (Ok (langchain_service.mkSalesAnalyzer llm
                (mkPromptTemplate [lit "question"; lit "context"] langchain_service.TEMPLATE)
                (mkLLMChain llm
                   (mkPromptTemplate [lit "question"; lit "context"]
                      langchain_service.TEMPLATE))),
          t ++ [ClientCreated llm]).
Proof.
  intros w t key Henv Hne. cbv zeta. split.
  - unfold sales_analyzer.__init__, sales_analyzer._initialize_llm, ChatOpenAI.
    unfold bind, getenv, log, emit, raise, ret. rewrite Henv.
    destruct key as [|c k]; [contradiction|].
    cbv beta iota delta [truthy negb]. reflexivity.
  - unfold langchain_service.__init__, ChatOpenAI.
    unfold bind, getenv, log, emit, raise, ret. rewrite Henv.
    destruct key as [|c k]; [contradiction|].
    cbv beta iota delta [truthy negb]. reflexivity.
Qed.

Lemma analyzer_constructed_with_credential_witness :
  sales_analyzer.__init__ Samples.healthy []
  = (Ok Samples.analyzer, [] ++ [ClientCreated (sales_analyzer.self_llm Samples.analyzer)]).
Proof.
  assert (Henv : environ Samples.healthy !! "OPENAI_API_KEY"%string = Some (lit "sk-test"))
    by (vm_compute; reflexivity).
  assert (Hne : lit "sk-test" <> []) by (vm_compute; discriminate).
  exact (proj1 (analyzer_constructed_with_credential Samples.healthy [] _ Henv Hne)).
Defined.

(** ** The ranking really is the top of the window *)

(** X10. A product name that has a sale inside the window and is missing from
    the ranking sold no more than any product that is in it. *)
Theorem top_products_dominate_the_rest :
  forall (F : Type) (round_float2 : Decimal -> F) (days limit : Z)
         (db : AsyncSession) (w : world) (t t' : trace)
         (res : list (main.TopProductResponse F)) (start : datetime)
         (p : Product) (s : Sale),
    main.top_products F round_float2 days limit db w t = (Ok res, t') ->
    window_start w days = Ok start ->
    In p (tbl_products w) -> In s (tbl_sales w) ->
    product_id s = product_id_ p -> PyDatetime.le start (sale_date s) ->
    name p ∈ map main.product res
    \/ Forall (fun r => sold_since w start (name p) <= main.total_sold r) res.
Proof.
  intros F rf days limit db w t t' res start p s Hret Hstart Hp Hs Hid Hle.
  rewrite top_products_cases, Hstart in Hret.
  destruct (execute_fault w) as [e|].
  { destruct (is_Exception e); discriminate Hret. }
  injection Hret as <- _.
  destruct (select_top_products_complete w start limit p s Hp Hs Hid Hle)
    as [Hin|[_ Hall]].
  - left. rewrite map_map. exact Hin.
  - right. apply Forall_map. exact Hall.
Qed.

Lemma top_products_dominate_the_rest_witness :
  exists res t' start,
    main.top_products Decimal (rescale (-2)) 30 1 Session Samples.healthy [] = (Ok res, t')
    /\ window_start Samples.healthy 30 = Ok start
    /\ (name Samples.gadget ∈ map main.product res
        \/ Forall (fun r => sold_since Samples.healthy start (name Samples.gadget)
                            <= main.total_sold r) res).
Proof.
  destruct (window_start_ok Samples.healthy 30 noon_valid
              ltac:(vm_compute; intro; discriminate) ltac:(lia)) as [start Hstart].
  pose proof (top_products_cases (rescale (-2)) 30 1 Session Samples.healthy []) as Hrun.
  rewrite Hstart in Hrun. change (execute_fault Samples.healthy) with (@None exn) in Hrun.
  cbv beta iota in Hrun.
  eexists. eexists. exists start. split; [exact Hrun|]. split; [exact Hstart|].
  refine (top_products_dominate_the_rest Decimal (rescale (-2)) 30 1 Session
            Samples.healthy [] _ _ start Samples.gadget Samples.sale_gadget
            Hrun Hstart _ _ eq_refl _).
  - right. left. reflexivity.
  - right. right. left. reflexivity.
  - revert Hstart. vm_compute. intros [= <-]. reflexivity.
Defined.

(** ** One row per sale *)

Lemma unique_by_id (ps : list Product) (p p' : Product) :
  NoDup (map product_id_ ps) -> In p ps -> In p' ps ->
  product_id_ p = product_id_ p' -> p = p'.
Proof.
  induction ps as [|x ps IH]; intros Hnd Hp Hp' Hid; [contradiction|].
  cbn [map] in Hnd. apply NoDup_cons in Hnd as [Hfresh Hnd].
  assert (Hmem : forall y, In y ps -> product_id_ y ∈ map product_id_ ps).
  { intros y Hy. apply list_elem_of_fmap. exists y. split; [reflexivity|].
    apply list_elem_of_In. exact Hy. }
  destruct Hp as [<-|Hp], Hp' as [<-|Hp'].
  - reflexivity.
  - exfalso. apply Hfresh. rewrite Hid. auto.
  - exfalso. apply Hfresh. rewrite <- Hid. auto.
  - apply IH; assumption.
Qed.

Lemma matches_at_most_one (ps : list Product) (k : Z) :
  NoDup (map product_id_ ps) ->
  (length (List.filter (fun p => (k =? product_id_ p)%Z) ps) <= 1)%nat.
Proof.
  induction ps as [|x ps IH]; intros Hnd; cbn [List.filter]; [cbn; lia|].
  cbn [map] in Hnd. apply NoDup_cons in Hnd as [Hfresh Hnd].
  destruct (Z.eqb_spec k (product_id_ x)) as [->|Hne]; [|apply IH, Hnd].
  assert (Hnone : List.filter (fun p => product_id_ x =? product_id_ p) ps = []).
  { destruct (List.filter _ ps) as [|y ys] eqn:E; [reflexivity|]. exfalso.
    assert (Hy : In y (List.filter (fun p => product_id_ x =? product_id_ p) ps))
      by (rewrite E; left; reflexivity).
    apply filter_In in Hy as [Hy Heq]. apply Z.eqb_eq in Heq.
    apply Hfresh. rewrite Heq. apply list_elem_of_fmap. exists y.
    split; [reflexivity | apply list_elem_of_In; exact Hy]. }
  rewrite Hnone. cbn. lia.
Qed.

Lemma join_on_length_bound (ss : list Sale) (ps : list Product) :
  NoDup (map product_id_ ps) ->
  (length (join_on ss ps (fun s p => (product_id s =? product_id_ p)%Z)) <= length ss)%nat.
Proof.
  intros Hnd. unfold join_on.
  induction ss as [|s ss IH]; cbn [flat_map]; [cbn; lia|].
  rewrite length_app, length_map. cbn [length].
  pose proof (matches_at_most_one ps (product_id s) Hnd). lia.
Qed.

(** X12. When product ids are unique, as a primary key is, the accessor
    returns each sale at most once: a sale is paired with one product
    only, and there are no more rows than sales. *)
Theorem fetch_pairs_each_sale_once :
  forall (days : Z) (w : world) (t t' : trace) (rows : list (Sale * Product)),
    NoDup (map product_id_ (tbl_products w)) ->
    sales_analyzer._get_sales_data days w t = (Ok rows, t') ->
    (length rows <= length (tbl_sales w))%nat
    /\ forall s p p', In (s, p) rows -> In (s, p') rows -> p = p'.
Proof.
  intros days w t t' rows Hnd Hret.
  rewrite get_sales_data_cases in Hret.
  destruct (window_start w days) as [start|e];
    [|destruct (is_Exception e); discriminate Hret].
  destruct (execute_fault w) as [e|];
    [destruct (is_Exception e); discriminate Hret|].
  injection Hret as <- _. split.
  - unfold select_sales_with_product, order_by_date_desc, where_.
    rewrite (Permutation_length (merge_sort_Permutation _ _)).
    etransitivity; [apply List.filter_length_le|].
    apply join_on_length_bound, Hnd.
  - intros s p p' H1 H2.
    apply select_sales_with_product_In in H1 as (_ & Hp & Hid & _).
    apply select_sales_with_product_In in H2 as (_ & Hp' & Hid' & _).
    apply (unique_by_id _ _ _ Hnd Hp Hp'). congruence.
Qed.

Lemma fetch_pairs_each_sale_once_witness :
  exists rows t',
    sales_analyzer._get_sales_data 7 Samples.healthy [] = (Ok rows, t')
    /\ (length rows <= length (tbl_sales Samples.healthy))%nat.
Proof.
  assert (Hnd : NoDup (map product_id_ (tbl_products Samples.healthy))).
  { cbn. apply NoDup_cons. split; [|apply NoDup_singleton].
    intros H. apply list_elem_of_singleton in H. discriminate H. }
  destruct (sales_analyzer._get_sales_data 7 Samples.healthy []) as [[rows|e] t'] eqn:Hrun.
  - exists rows, t'. split; [reflexivity|].
    exact (proj1 (fetch_pairs_each_sale_once 7 Samples.healthy [] t' rows Hnd Hrun)).
  - exfalso. vm_compute in Hrun. discriminate Hrun.
Defined.

(** ** What the validators accept *)

Lemma skip_class_all (l : str) :
  Forall (fun c => sku_class c = true) l -> forall rest, skip_class (l ++ rest) = skip_class rest.
Proof.
  induction 1 as [|x l Hx _ IH]; intros rest; cbn [app skip_class]; [reflexivity|].
  rewrite Hx. apply IH.
Qed.

(** X13. [validate_sku] accepts exactly the SKUs made of one or more capital
    letters, digits and hyphens, and those followed by a single newline;
    it returns an accepted SKU as it is, newline included, and answers
    every other string with its [ValueError]. *)
Theorem validate_sku_accepts_exactly :
  forall s : str,
    (validate_sku s = Ok s
     <-> sku_well_formed s \/ exists body, s = body ++ [NL] /\ sku_well_formed body)
    /\ (validate_sku s = Ok s
        \/ validate_sku s
           = Raise (ValueError
                      (lit "SKU must contain only uppercase letters, numbers and hyphens"))).
Proof.
  intros s. split.
  - split.
    + intros H. apply validate_sku_ok in H as [_ H]. exact H.
    + intros [Hwf|(body & -> & [Hne Hall])]; [apply validate_sku_complete, Hwf|].
      unfold validate_sku, re_match_sku.
      destruct body as [|c body']; [contradiction|]. cbn [app].
      pose proof Hall as Hall'. apply Forall_cons in Hall' as [Hc _]. rewrite Hc.
      change (c :: body' ++ [NL]) with ((c :: body') ++ [NL]).
      rewrite (skip_class_all _ Hall). reflexivity.
  - unfold validate_sku. destruct (re_match_sku s); [left | right]; reflexivity.
Qed.

Lemma pow10_Z (k : Z) : 0 <= k -> Z.of_N (pow10 k) = 10 ^ k.
Proof.
  intros Hk. unfold pow10. rewrite N2Z.inj_pow, Z2N.id by exact Hk. reflexivity.
Qed.

Lemma rescale_within_half_hundredth (d : Decimal) :
  within_half_hundredth d (rescale (-2) d).
Proof.
  unfold within_half_hundredth, rescale.
  destruct (Z.leb_spec (-2) (dexp d)) as [Hge|Hlt]; cbn [dcoef].
  - rewrite N2Z.inj_mul, pow10_Z by lia.
    replace (dexp d - -2) with (dexp d + 2) by lia. reflexivity.
  - set (p := pow10 (-2 - dexp d)).
    assert (HP : Z.of_N p = 10 ^ (-2 - dexp d)) by (apply pow10_Z; lia).
    assert (Hpos : 0 < 10 ^ (-2 - dexp d)) by (apply Z.pow_pos_nonneg; lia).
    rewrite <- HP in *.
    assert (Hp0 : p <> 0%N) by lia.
    pose proof (N.div_mod' (dcoef d) p) as Hdm.
    pose proof (N.mod_lt (dcoef d) p Hp0) as Hr.
    set (q := (dcoef d / p)%N) in *. set (r := (dcoef d mod p)%N) in *.
    assert (Hc : Z.of_N (dcoef d) = Z.of_N p * Z.of_N q + Z.of_N r) by lia.
    destruct (N.ltb_spec p (2 * r)) as [H1|H1]; cbn [orb].
    + rewrite N2Z.inj_add. change (Z.of_N 1) with 1. rewrite Hc. lia.
    + destruct (N.eqb_spec (2 * r) p) as [H2|H2]; cbn [andb].
      * destruct (N.odd q).
        -- rewrite N2Z.inj_add. change (Z.of_N 1) with 1. rewrite Hc. lia.
        -- rewrite Hc. lia.
      * rewrite Hc. lia.
Qed.

(** X14. A sale that the mapped class accepts keeps the given quantity, which
    is positive; both given prices were positive, and each stored price
    is non-negative, has exactly two fractional digits and lies within
    half a hundredth of the given one.  The other attributes are stored
    as given. *)
Theorem accepted_sale_invariants :
  forall (id pid : Z) (cid : option Z) (q : Z) (up ta : Decimal)
         (date : datetime) (pm : option str) (s : Sale),
    Sale_init id pid cid q up ta date pm = Ok s ->
    (sale_id s = id /\ product_id s = pid /\ customer_id s = cid
     /\ sale_date s = date /\ payment_method s = pm)
    /\ (quantity s = q /\ 0 < q)
    /\ (gt_zero up = true /\ gt_zero ta = true)
    /\ (dsign (unit_price s) = false /\ dexp (unit_price s) = -2
        /\ within_half_hundredth up (unit_price s))
    /\ (dsign (total_amount s) = false /\ dexp (total_amount s) = -2
        /\ within_half_hundredth ta (total_amount s)).
Proof.
  intros id pid cid q up ta date pm s. unfold Sale_init.
  destruct (validate_quantity q) as [q'|e] eqn:Hq; cbn [rbind]; [|discriminate].
  destruct (validate_prices up) as [up'|e] eqn:Hup; cbn [rbind]; [|discriminate].
  destruct (validate_prices ta) as [ta'|e] eqn:Hta; cbn [rbind]; [|discriminate].
  intros [= <-].
  apply validate_quantity_ok in Hq as [-> Hqpos].
  apply validate_prices_ok in Hup as (Hup1 & -> & Hup3 & Hup4).
  apply validate_prices_ok in Hta as (Hta1 & -> & Hta3 & Hta4).
  cbn [sale_id product_id customer_id sale_date payment_method quantity
         unit_price total_amount].
  repeat split; try assumption; apply rescale_within_half_hundredth.
Qed.

Lemma accepted_sale_invariants_witness :
  exists s,
    Sale_init 1 1 None 3 (mkDecimal false 12345 (-3)) (mkDecimal false 37035 (-3))
      Samples.noon None = Ok s
    /\ quantity s = 3
    /\ dexp (unit_price s) = -2
    /\ within_half_hundredth (mkDecimal false 12345 (-3)) (unit_price s).
Proof.
  destruct (Sale_init 1 1 None 3 (mkDecimal false 12345 (-3))
              (mkDecimal false 37035 (-3)) Samples.noon None) as [s|e] eqn:H.
  - exists s. split; [reflexivity|].
    destruct (accepted_sale_invariants _ _ _ _ _ _ _ _ _ H)
      as (_ & (Hq & _) & _ & (_ & He & Hw) & _).
    auto.
  - exfalso. vm_compute in H. discriminate H.
Defined.

(** ** The calendar behind the window *)

Lemma all_from_spec (k : nat) :
  forall n, all_from k n = true ->
            forall z, n <= z < n + Z.of_nat k -> date_ok z = true.
Proof.
  induction k as [|k IH]; intros n Hall z Hz; [lia|].
  cbn [all_from] in Hall. destruct (date_ok n) eqn:Hn; [|discriminate].
  destruct (Z.eq_dec z n) as [->|Hne]; [exact Hn|].
  apply (IH (n + 1) Hall). lia.
Qed.

Lemma one_cycle_checked : all_from (Z.to_nat 146097) 1 = true.
Proof. vm_compute. reflexivity. Qed.

Lemma cycle_ok (z : Z) : 1 <= z <= 146097 -> date_ok z = true.
Proof.
  intros Hz. apply (all_from_spec _ _ one_cycle_checked).
  rewrite Z2Nat.id by lia. lia.
Qed.

Lemma is_leap_shift (y k : Z) : is_leap (y + 400 * k) = is_leap y.
Proof.
  unfold is_leap.
  replace ((y + 400 * k) mod 4) with (y mod 4)
    by (replace (y + 400 * k) with (y + (100 * k) * 4) by lia;
        rewrite Z.mod_add by lia; reflexivity).
  replace ((y + 400 * k) mod 100) with (y mod 100)
    by (replace (y + 400 * k) with (y + (4 * k) * 100) by lia;
        rewrite Z.mod_add by lia; reflexivity).
  replace ((y + 400 * k) mod 400) with (y mod 400)
    by (replace (y + 400 * k) with (y + k * 400) by lia;
        rewrite Z.mod_add by lia; reflexivity).
  reflexivity.
Qed.

Lemma days_in_month_shift (y m k : Z) :
  days_in_month (y + 400 * k) m = days_in_month y m.
Proof. unfold days_in_month. rewrite is_leap_shift. reflexivity. Qed.

Lemma days_before_year_shift (y k : Z) :
  days_before_year (y + 400 * k) = days_before_year y + 146097 * k.
Proof. unfold days_before_year. cbv zeta. Z.div_mod_to_equations. lia. Qed.

Lemma ymd2ord_shift (y m d k : Z) :
  ymd2ord (y + 400 * k) m d = ymd2ord y m d + 146097 * k.
Proof.
  unfold ymd2ord, days_before_month.
  rewrite days_before_year_shift, is_leap_shift. lia.
Qed.

Lemma ord2ymd_shift (n0 k : Z) :
  1 <= n0 <= 146097 ->
  ord2ymd (n0 + 146097 * k)
  = (fst (fst (ord2ymd n0)) + 400 * k, snd (fst (ord2ymd n0)), snd (ord2ymd n0)).
Proof.
  intros Hn0. unfold ord2ymd. cbv zeta.
  assert (Hd : (n0 + 146097 * k - 1) / DI400Y = k).
  { unfold DI400Y. replace (n0 + 146097 * k - 1) with ((n0 - 1) + k * 146097) by lia.
    rewrite Z.div_add by lia. rewrite Z.div_small by lia. lia. }
  assert (Hm : (n0 + 146097 * k - 1) mod DI400Y = n0 - 1).
  { unfold DI400Y. replace (n0 + 146097 * k - 1) with ((n0 - 1) + k * 146097) by lia.
    rewrite Z.mod_add by lia. apply Z.mod_small. lia. }
  assert (Hd0 : (n0 - 1) / DI400Y = 0) by (apply Z.div_small; unfold DI400Y; lia).
  assert (Hm0 : (n0 - 1) mod DI400Y = n0 - 1) by (apply Z.mod_small; unfold DI400Y; lia).
  rewrite Hd, Hm, Hd0, Hm0.
  set (n := n0 - 1).
  set (n100 := n / DI100Y). set (r100 := n mod DI100Y).
  set (n4 := r100 / DI4Y). set (r4 := r100 mod DI4Y).
  set (n1 := r4 / 365). set (r1 := r4 mod 365).
  destruct ((n1 =? 4) || (n100 =? 4)); cbn [fst snd].
  - f_equal. f_equal. lia.
  - set (leapyear := (n1 =? 3) && (negb (n4 =? 24) || (n100 =? 3))).
    set (m := Z.shiftr (r1 + 50) 5).
    destruct (r1 <? DAYS_BEFORE_MONTH m + (if (2 <? m) && leapyear then 1 else 0));
      cbn [fst snd]; f_equal; f_equal; lia.
Qed.

(** Every ordinal of the supported range is the ordinal of the date it is
    converted to, and that date exists. *)
Lemma ord2ymd_correct (n : Z) :
  1 <= n <= MAXORDINAL ->
  ymd2ord (fst (fst (ord2ymd n))) (snd (fst (ord2ymd n))) (snd (ord2ymd n)) = n
  /\ 1 <= fst (fst (ord2ymd n)) <= 9999
  /\ 1 <= snd (fst (ord2ymd n)) <= 12
  /\ 1 <= snd (ord2ymd n)
     <= days_in_month (fst (fst (ord2ymd n))) (snd (fst (ord2ymd n))).
Proof.
  unfold MAXORDINAL. intros Hn.
  set (k := (n - 1) / 146097). set (n0 := (n - 1) mod 146097 + 1).
  assert (Hn0 : 1 <= n0 <= 146097).
  { unfold n0. pose proof (Z.mod_pos_bound (n - 1) 146097 ltac:(lia)). lia. }
  assert (Hsplit : n = n0 + 146097 * k).
  { unfold n0, k. pose proof (Z.div_mod (n - 1) 146097 ltac:(lia)). lia. }
  assert (Hk : 0 <= k <= 24).
  { unfold k. split; [apply Z.div_pos; lia|].
    apply Z.lt_succ_r. apply Z.div_lt_upper_bound; lia. }
  rewrite Hsplit, (ord2ymd_shift n0 k Hn0). cbn [fst snd].
  pose proof (cycle_ok n0 Hn0) as Hok. unfold date_ok in Hok.
  destruct (ord2ymd n0) as [[y0 m0] d0]. cbn [fst snd].
  repeat (apply andb_true_iff in Hok as [Hok ?]).
  rewrite ymd2ord_shift, days_in_month_shift.
  repeat match goal with
         | H : (_ =? _) = true |- _ => apply Z.eqb_eq in H
         | H : (_ <=? _) = true |- _ => apply Z.leb_le in H
         end.
  assert (Hy : k = 24 -> y0 <= 399).
  { intros Hk24.
    match goal with H : (_ || _) = true |- _ => apply orb_true_iff in H as [H|H] end.
    - apply Z.ltb_lt in H. lia.
    - apply Z.leb_le in H. exact H. }
  repeat split; try lia.
Qed.

Lemma window_start_spec :
  forall (w : world) (days : Z) (start : datetime),
    PyDatetime.valid (clock w) ->
    window_start w days = Ok start ->
    PyDatetime.valid start
    /\ toordinal start = toordinal (clock w) - days
    /\ instant start = instant (clock w) - days * MICROSECONDS_PER_DAY.
Proof.
  intros w days start Hv. unfold window_start, timedelta, PyDatetime.sub.
  destruct (999999999 <? Z.abs days); cbn [rbind]; [discriminate|].
  destruct (Z.ltb_spec 0 (toordinal (clock w) - days)); cbn [andb]; [|discriminate].
  destruct (Z.leb_spec (toordinal (clock w) - days) MAXORDINAL); [|discriminate].
  pose proof (ord2ymd_correct (toordinal (clock w) - days) ltac:(lia))
    as (Hord & Hy & Hm & Hd).
  destruct (ord2ymd (toordinal (clock w) - days)) as [[y m] d]. cbn [fst snd] in *.
  intros [= <-].
  destruct Hv as (_ & _ & _ & Hh & Hmi & Hs & Hus).
  assert (Hto : toordinal (mkDatetime y m d (hour (clock w)) (minute (clock w))
                             (second (clock w)) (microsecond (clock w)))
                = toordinal (clock w) - days) by exact Hord.
  split; [|split].
  - unfold PyDatetime.valid. cbn [year month day hour minute second microsecond].
    repeat split; lia.
  - exact Hto.
  - unfold instant. rewrite Hto.
    cbn [hour minute second microsecond]. unfold MICROSECONDS_PER_DAY. lia.
Qed.

(** X15. The start of the window is an existing date, exactly [days] days
    before the clock's date, at the same time of day. *)
Theorem window_start_is_days_earlier :
  forall (w : world) (days : Z) (start : datetime),
    PyDatetime.valid (clock w) ->
    window_start w days = Ok start ->
    PyDatetime.valid start
    /\ toordinal start = toordinal (clock w) - days
    /\ instant start = instant (clock w) - days * MICROSECONDS_PER_DAY.
Proof. exact window_start_spec. Qed.

Lemma window_start_is_days_earlier_witness :
  exists start,
    window_start Samples.healthy 7 = Ok start
    /\ toordinal start = toordinal (clock Samples.healthy) - 7.
Proof.
  destruct (window_start_ok Samples.healthy 7 noon_valid
              ltac:(vm_compute; intro; discriminate) ltac:(lia)) as [start Hstart].
  exists start. split; [exact Hstart|].
  exact (proj1 (proj2 (window_start_is_days_earlier Samples.healthy 7 start
                         noon_valid Hstart))).
Defined.

(** ** Timestamp order is chronological order *)

Lemma days_before_year_succ (y : Z) :
  days_before_year (y + 1)
  = days_before_year y + 365 + (if is_leap y then 1 else 0).
Proof.
  unfold days_before_year, is_leap. cbv zeta.
  replace (y + 1 - 1) with y by lia.
  destruct (Z.eqb_spec (y mod 4) 0), (Z.eqb_spec (y mod 100) 0),
    (Z.eqb_spec (y mod 400) 0); cbn [negb andb orb];
    Z.div_mod_to_equations; lia.
Qed.

Lemma days_before_year_mono (y y' : Z) :
  y <= y' -> days_before_year y <= days_before_year y'.
Proof. intros H. unfold days_before_year. cbv zeta. Z.div_mod_to_equations. lia. Qed.

Lemma month_before_month (y m m' d : Z) :
  1 <= m -> m < m' -> m' <= 12 -> d <= days_in_month y m ->
  days_before_month y m + d <= days_before_month y m'.
Proof.
  intros H1 Hlt H12 Hd. unfold days_before_month, days_in_month in *.
  destruct (is_leap y);
    destruct (month_cases m ltac:(lia)) as [->|[->|[->|[->|[->|[->|[->|[->|[->|[->|[->| ->]]]]]]]]]]];
    destruct (month_cases m' ltac:(lia)) as [->|[->|[->|[->|[->|[->|[->|[->|[->|[->|[->| ->]]]]]]]]]]];
    try lia;
    match type of Hd with
    | _ <= ?c => let v := eval vm_compute in c in change (d <= v) in Hd
    end;
    match goal with
    | |- ?a + d <= ?c =>
        let va := eval vm_compute in a in
        let vc := eval vm_compute in c in
        change (va + d <= vc)
    end; lia.
Qed.

Lemma ymd2ord_lt (y m d y' m' d' : Z) :
  1 <= m <= 12 -> 1 <= d <= days_in_month y m ->
  1 <= m' <= 12 -> 1 <= d' <= days_in_month y' m' ->
  y < y' \/ (y = y' /\ (m < m' \/ (m = m' /\ d < d'))) ->
  ymd2ord y m d < ymd2ord y' m' d'.
Proof.
  intros Hm Hd Hm' Hd' Hlt. unfold ymd2ord.
  pose proof (day_of_year_bounds y m d Hm Hd) as Hb.
  pose proof (day_of_year_bounds y' m' d' Hm' Hd') as Hb'.
  destruct Hlt as [Hy|[<- [Hmm|[<- Hdd]]]].
  - pose proof (days_before_year_succ y) as Hs.
    pose proof (days_before_year_mono (y + 1) y' ltac:(lia)). lia.
  - pose proof (month_before_month y m m' d ltac:(lia) Hmm ltac:(lia) ltac:(lia)). lia.
  - lia.
Qed.

Lemma lex_leb_cons (x y : Z) (a b : list Z) :
  lex_leb (x :: a) (y :: b) = true <-> x < y \/ (x = y /\ lex_leb a b = true).
Proof.
  cbn [lex_leb]. rewrite orb_true_iff, andb_true_iff, Z.ltb_lt, Z.eqb_eq. reflexivity.
Qed.

Lemma datetime_le_iff_instant :
  forall a b : datetime,
    PyDatetime.valid a -> PyDatetime.valid b ->
    (PyDatetime.le a b <-> instant a <= instant b).
Proof.
  intros a b (Hya & Hma & Hda & Hha & Hmia & Hsa & Husa)
             (Hyb & Hmb & Hdb & Hhb & Hmib & Hsb & Husb).
  unfold PyDatetime.le, PyDatetime.leb, fields.
  rewrite !lex_leb_cons. change (lex_leb [] [] = true) with (true = true).
  unfold instant, toordinal.
  pose proof (ymd2ord_lt (year a) (month a) (day a) (year b) (month b) (day b)
                Hma Hda Hmb Hdb) as Hlt.
  pose proof (ymd2ord_lt (year b) (month b) (day b) (year a) (month a) (day a)
                Hmb Hdb Hma Hda) as Hgt.
  assert (Heq : year a = year b -> month a = month b -> day a = day b ->
                ymd2ord (year a) (month a) (day a) = ymd2ord (year b) (month b) (day b))
    by (intros -> -> ->; reflexivity).
  set (oa := ymd2ord (year a) (month a) (day a)) in *.
  set (ob := ymd2ord (year b) (month b) (day b)) in *.
  assert (Htri : (year a < year b \/ (year a = year b /\ (month a < month b
                    \/ (month a = month b /\ day a < day b))))
                 \/ (year a = year b /\ month a = month b /\ day a = day b)
                 \/ (year b < year a \/ (year b = year a /\ (month b < month a
                    \/ (month b = month a /\ day b < day a))))) by lia.
  destruct Htri as [H|[(E1 & E2 & E3)|H]].
  - specialize (Hlt H). split; [intros _; lia|]. intros _. lia.
  - specialize (Heq E1 E2 E3). split; intros Hle; lia.
  - specialize (Hgt H). split; intros Hle; lia.
Qed.

(** X16. On existing dates the order used by the query, field by field, is the
    order of the instants. *)
Theorem timestamp_order_is_chronological :
  forall a b : datetime,
    PyDatetime.valid a -> PyDatetime.valid b ->
    (PyDatetime.le a b <-> instant a <= instant b).
Proof. exact datetime_le_iff_instant. Qed.

Lemma sample_sale_date_valid : PyDatetime.valid (sale_date Samples.sale_widget).
Proof. repeat split; vm_compute; intro; discriminate. Qed.

Lemma timestamp_order_is_chronological_witness :
  PyDatetime.le (sale_date Samples.sale_widget) Samples.noon
  <-> instant (sale_date Samples.sale_widget) <= instant Samples.noon.
Proof.
  exact (timestamp_order_is_chronological (sale_date Samples.sale_widget) Samples.noon
           sample_sale_date_valid noon_valid).
Defined.

(** X17. With existing dates on the clock and in the table, the accessor
    returns exactly the sales that have their product and are no older
    than [days] times 24 hours; there is no upper end, so a sale dated
    after the clock is returned too. *)
Theorem fetch_returns_the_last_days_exactly :
  forall (days : Z) (w : world) (t t' : trace) (rows : list (Sale * Product)),
    PyDatetime.valid (clock w) ->
    Forall (fun s => PyDatetime.valid (sale_date s)) (tbl_sales w) ->
    sales_analyzer._get_sales_data days w t = (Ok rows, t') ->
    forall s p,
      In (s, p) rows
      <-> In s (tbl_sales w) /\ In p (tbl_products w)
          /\ product_id s = product_id_ p
          /\ instant (clock w) - instant (sale_date s) <= days * MICROSECONDS_PER_DAY.
Proof.
  intros days w t t' rows Hclock Hsales Hret s p.
  rewrite get_sales_data_cases in Hret.
  destruct (window_start w days) as [start|e] eqn:Hstart;
    [|destruct (is_Exception e); discriminate Hret].
  destruct (execute_fault w) as [e|];
    [destruct (is_Exception e); discriminate Hret|].
  injection Hret as <- _.
  destruct (window_start_spec w days start Hclock Hstart)
    as (Hvstart & _ & Hinst).
  rewrite select_sales_with_product_In.
  split.
  - intros (Hs & Hp & Hid & Hle). repeat split; try assumption.
    rewrite Forall_forall in Hsales.
    apply (datetime_le_iff_instant start (sale_date s) Hvstart) in Hle;
      [lia|]. apply Hsales, list_elem_of_In, Hs.
  - intros (Hs & Hp & Hid & Hage). repeat split; try assumption.
    rewrite Forall_forall in Hsales.
    apply (datetime_le_iff_instant start (sale_date s) Hvstart);
      [|lia]. apply Hsales, list_elem_of_In, Hs.
Qed.

Lemma sample_sales_valid :
  Forall (fun s => PyDatetime.valid (sale_date s)) (tbl_sales Samples.healthy).
Proof. repeat constructor; vm_compute; intro; discriminate. Qed.

Lemma fetch_returns_the_last_days_exactly_witness :
  exists rows t',
    sales_analyzer._get_sales_data 7 Samples.healthy [] = (Ok rows, t')
    /\ In (Samples.sale_widget, Samples.widget) rows.
Proof.
  destruct (sales_analyzer._get_sales_data 7 Samples.healthy []) as [[rows|e] t'] eqn:Hrun.
  - exists rows, t'. split; [reflexivity|].
    apply (fetch_returns_the_last_days_exactly 7 Samples.healthy [] t' rows
             noon_valid sample_sales_valid Hrun).
    split; [left; reflexivity|]. split; [left; reflexivity|]. split; [reflexivity|].
    vm_compute. intro; discriminate.
  - exfalso. vm_compute in Hrun. discriminate Hrun.
Defined.

(** ** What the numbers in a line denote *)

Lemma two_digits_value (m : Z) : 0 <= m < 100 -> digits_value (two_digits m) = m.
Proof.
  intros Hm. unfold digits_value, two_digits. cbn [fold_left].
  rewrite !digit_char_value. Z.div_mod_to_equations. lia.
Qed.


(** X18. The amount printed in a line is the total amount rounded to
    hundredths, halves to even: an optional minus sign, the digits of the
    whole part, a point and two digits, which together read back as the
    rounded number of hundredths. *)
Theorem printed_amount_is_the_rounded_total :
  forall d : Decimal,
    let h := Z.of_N (dcoef (rescale (-2) d)) in
    PyDecimal.format d (lit ".2f")
    = Ok ((if dsign d then lit "-" else [])
          ++ nat_digits (h / 100) ++ lit "." ++ two_digits (h mod 100))
    /\ digits_value (nat_digits (h / 100)) * 100 + digits_value (two_digits (h mod 100)) = h
    /\ within_half_hundredth d (rescale (-2) d).
Proof.
  intros d h. split; [|split].
  - rewrite format_2f, format_fixed_2. reflexivity.
  - assert (Hh : 0 <= h) by (unfold h; lia).
    rewrite nat_digits_value by (apply Z.div_pos; lia).
    rewrite two_digits_value by (apply Z.mod_pos_bound; lia).
    pose proof (Z.div_mod h 100 ltac:(lia)). lia.
  - apply rescale_within_half_hundredth.
Qed.

(** ** A short ranking is a complete one *)

(** X11. When the ranking has fewer rows than the limit allows, every product
    name with a sale inside the window is in it. *)
Theorem short_ranking_is_complete :
  forall (F : Type) (round_float2 : Decimal -> F) (days limit : Z)
         (db : AsyncSession) (w : world) (t t' : trace)
         (res : list (main.TopProductResponse F)) (start : datetime)
         (p : Product) (s : Sale),
    main.top_products F round_float2 days limit db w t = (Ok res, t') ->
    window_start w days = Ok start ->
    Z.of_nat (length res) < limit ->
    In p (tbl_products w) -> In s (tbl_sales w) ->
    product_id s = product_id_ p -> PyDatetime.le start (sale_date s) ->
    name p ∈ map main.product res.
Proof.
  intros F rf days limit db w t t' res start p s Hret Hstart Hshort Hp Hs Hid Hle.
  rewrite top_products_cases, Hstart in Hret.
  destruct (execute_fault w) as [e|].
  { destruct (is_Exception e); discriminate Hret. }
  injection Hret as <- _.
  rewrite length_map in Hshort.
  destruct (select_top_products_complete w start limit p s Hp Hs Hid Hle)
    as [Hin|[Hfull _]].
  - rewrite map_map. exact Hin.
  - lia.
Qed.

Lemma short_ranking_is_complete_witness :
  exists res t',
    main.top_products Decimal (rescale (-2)) 30 5 Session Samples.healthy [] = (Ok res, t')
    /\ name Samples.gadget ∈ map main.product res.
Proof.
  destruct (window_start_ok Samples.healthy 30 noon_valid
              ltac:(vm_compute; intro; discriminate) ltac:(lia)) as [start Hstart].
  pose proof (top_products_cases (rescale (-2)) 30 5 Session Samples.healthy []) as Hrun.
  rewrite Hstart in Hrun. change (execute_fault Samples.healthy) with (@None exn) in Hrun.
  cbv beta iota in Hrun.
  eexists. eexists. split; [exact Hrun|].
  refine (short_ranking_is_complete Decimal (rescale (-2)) 30 5 Session
            Samples.healthy [] _ _ start Samples.gadget Samples.sale_gadget
            Hrun Hstart _ _ _ eq_refl _).
  - assert (Hs := Hstart). vm_compute in Hs. injection Hs as <-.
    vm_compute. reflexivity.
  - right. left. reflexivity.
  - right. right. left. reflexivity.
  - revert Hstart. vm_compute. intros [= <-]. reflexivity.
Defined.
